(** * GitSourceControlMenu: the asset-reload protocol around Sync / Revert

    A shallow embedding of [Source/GitSourceControl/Private/GitSourceControlMenu.cpp].

    The menu object is a record of its three mutable members; the editor's
    table of resident packages is a finite map keyed by long package name;
    every call into a collaborator (the git command runner, the package
    tools, the message log, the notification manager) is recorded in a trace
    of events, so that statements about "what is run, and in which order"
    are statements about lists. *)

From stdpp Require Import base option list strings gmap fin_maps.
From Stdlib Require Import Ascii String Sorted.

Local Open Scope string_scope.
Local Open Scope list_scope.

(** ** FString helpers used by the menu *)

Module FString.

(** [FChar::ToLower] restricted to the ASCII range. *)
Definition ToLower (c : ascii) : ascii :=
  let n := nat_of_ascii c in
  if (65 <=? n)%nat && (n <=? 90)%nat then ascii_of_nat (n + 32) else c.

Fixpoint has_prefix_ci (s prefix : string) {struct prefix} : bool :=
  match prefix with
  | EmptyString => true
  | String p prefix' =>
      match s with
      | EmptyString => false
      | String c s' => Ascii.eqb (ToLower c) (ToLower p) && has_prefix_ci s' prefix'
      end
  end.

(** [FString::StartsWith(Prefix)]: the default search case is
    [ESearchCase::IgnoreCase], and an empty prefix never matches. *)
Definition StartsWith (s prefix : string) : bool :=
  match prefix with
  | EmptyString => false
  | _ => has_prefix_ci s prefix
  end.

(** [FString::RightChop(Count)]: the string without its first [Count]
    characters (empty when it is shorter). *)
Fixpoint RightChop (s : string) (Count : nat) : string :=
  match Count with
  | O => s
  | S k => match s with
           | EmptyString => EmptyString
           | String _ s' => RightChop s' k
           end
  end.

End FString.

(** ** Data model *)

(** What a [UPackage*] gives access to without touching mutable state:
    the long package name (which is also the identity of a resident package)
    and whether the package holds a map. *)
Record UPackage := mkPackage {
  GetName : string;
  ContainsMap : bool
}.

(** The mutable part of a resident package. *)
Record PackageEntry := mkEntry {
  entry_map : bool;          (* UPackage::ContainsMap() *)
  IsFullyLoaded : bool;      (* UPackage::IsFullyLoaded() *)
  HasLinker : bool           (* a loader is still attached to the file *)
}.

(** The editor's resident packages, by long package name. *)
Abbreviation Resident := (gmap string PackageEntry).

Inductive OperationName := OpSync | OpRevert | OpPush | OpUpdateStatus.

Inductive CommandResult := Succeeded | Failed | Cancelled.

Inductive Verbosity := VLog | VWarning | VError.

Inductive LogLine :=
| LogResetLoaders (count : nat)          (* "Reseted Loader for %d Packages" *)
| LogReloading (count : nat)             (* "Reloading %d Packages..." *)
| LogPathAndName (path name : string)    (* "%s - %s" *)
| LogSuccess (op : OperationName)        (* "{0} operation was successful!" *)
| LogFailure (op : OperationName).       (* "Error: {0} operation failed!" *)

Inductive Notification :=
| NotifyInProgress (op : OperationName)
| NotifySuccess (op : OperationName)
| NotifyFailure (op : OperationName).

(** One event per call into a collaborator. *)
Inductive Event :=
| EvSaveDirtyPackages
| EvGetBranchName
| EvRunCommand (Command : string) (Parameters : list string)
| EvMessageDialog (Text : string)
| EvFlushAsyncLoading
| EvFullyLoad (Package : UPackage)
| EvResetLoaders (Package : UPackage)
| EvReloadPackages (Packages : list UPackage)
| EvUnloadPackages (Packages : list UPackage)
| EvExecute (Operation : OperationName)
| EvMessageLogError (Text : string)
| EvMessageLogWarning (Text : string)
| EvMessageLogNotify
| EvLog (v : Verbosity) (line : LogLine)
| EvAddNotification (n : Notification)
| EvExpireAndFadeout.

(** Everything the handlers read from outside the menu object during one
    run of a handler: the engine's path services, the provider, the answers
    of the user and the results of the commands. *)
Record World := mkWorld {
  (* engine path services *)
  FindPackagesInDirectory : list string;
  ConvertRelativePathToFull : string → string → string;
  TryConvertFilenameToLongPackageName : string → string + string;
      (* [inl PackageName] on success, [inr FailureReason] otherwise *)
  LongPackageNameToFilename : string → string → string;
  FileExists : string → bool;
  (* provider *)
  PathToRepositoryRoot : string;
  BranchName : string;
  (* FEditorFileUtils *)
  SaveDirtyPackages_result : bool;
  DirtyPackagesLeft : nat;
  (* git commands run synchronously *)
  DiffOutput : list string;                 (* diff --stat --name-only ..origin/<branch> *)
  StatusOutput : list string;               (* status, in SyncClicked *)
  StashStatusResult : bool * list string;   (* status, in StashAwayAnyModifications *)
  StashSaveOk : bool;
  StashPopOk : bool;
  (* the user, the provider's Execute and the notification manager *)
  DialogChoiceOk : bool;
  ExecuteResult : CommandResult;
  AddNotificationResult : option nat
}.

(** The members of [FGitSourceControlMenu]. *)
Record Menu := mkMenu {
  OperationInProgressNotification : option nat;   (* [Some _] iff IsValid() *)
  PackagesToReload : list UPackage;
  bStashMadeBeforeSync : bool
}.

Definition GetMapPackageExtension : string := ".umap".
Definition GetAssetPackageExtension : string := ".uasset".

(** ** The asset host *)

Module Host.

Definition FindPackage (h : Resident) (PackageName : string) : option UPackage :=
  match h !! PackageName with
  | Some e => Some (mkPackage PackageName (entry_map e))
  | None => None
  end.

Definition fully_loaded (h : Resident) (p : UPackage) : bool :=
  match h !! GetName p with
  | Some e => IsFullyLoaded e
  | None => false
  end.

Definition FullyLoad (p : UPackage) (h : Resident) : Resident :=
  alter (λ e, mkEntry (entry_map e) true (HasLinker e)) (GetName p) h.

Definition ResetLoaders (p : UPackage) (h : Resident) : Resident :=
  alter (λ e, mkEntry (entry_map e) (IsFullyLoaded e) false) (GetName p) h.

Definition Reload (p : UPackage) (h : Resident) : Resident :=
  alter (λ e, mkEntry (entry_map e) true true) (GetName p) h.

Definition ReloadPackages (ps : list UPackage) (h : Resident) : Resident :=
  foldr Reload h ps.

Definition UnloadPackages (ps : list UPackage) (h : Resident) : Resident :=
  foldr (λ p, delete (GetName p)) h ps.

(** The host's own view of an event.  Resetting the loaders of a package
    that is not resident or not fully loaded is outside what the host
    supports: there the step is undefined. *)
Definition step (h : Resident) (e : Event) : option Resident :=
  match e with
  | EvFullyLoad p => Some (FullyLoad p h)
  | EvResetLoaders p => if fully_loaded h p then Some (ResetLoaders p h) else None
  | EvReloadPackages ps => Some (ReloadPackages ps h)
  | EvUnloadPackages ps => Some (UnloadPackages ps h)
  | _ => Some h
  end.

Fixpoint run (h : Resident) (t : list Event) : option Resident :=
  match t with
  | [] => Some h
  | e :: t' => match step h e with
               | Some h' => run h' t'
               | None => None
               end
  end.

End Host.

(** ** Commands: state passing with a trace *)

Definition St : Type := Menu * Resident.

Definition Cmd (A : Type) : Type := St → A * St * list Event.

Definition ret {A} (x : A) : Cmd A := λ s, (x, s, []).

Definition bind {A B} (m : Cmd A) (f : A → Cmd B) : Cmd B :=
  λ s, let '(a, s1, t1) := m s in
       let '(b, s2, t2) := f a s1 in
       (b, s2, t1 ++ t2).

Notation "x <- m ;; k" := (bind m (λ x, k))
  (at level 100, m at next level, right associativity).
Notation "m ;;; k" := (bind m (λ _, k))
  (at level 100, right associativity).

Definition emit (e : Event) : Cmd unit := λ s, (tt, s, [e]).
Definition getMenu : Cmd Menu := λ s, (fst s, s, []).
Definition getHost : Cmd Resident := λ s, (snd s, s, []).
Definition putMenu (m : Menu) : Cmd unit := λ s, (tt, (m, snd s), []).
Definition putHost (h : Resident) : Cmd unit := λ s, (tt, (fst s, h), []).

Definition set_PackagesToReload (ps : list UPackage) : Cmd unit :=
  m <- getMenu ;;
  putMenu (mkMenu (OperationInProgressNotification m) ps (bStashMadeBeforeSync m)).

Definition set_bStashMadeBeforeSync (b : bool) : Cmd unit :=
  m <- getMenu ;;
  putMenu (mkMenu (OperationInProgressNotification m) (PackagesToReload m) b).

Definition set_OperationInProgressNotification (n : option nat) : Cmd unit :=
  m <- getMenu ;;
  putMenu (mkMenu n (PackagesToReload m) (bStashMadeBeforeSync m)).

Definition trace_of {A} (r : A * St * list Event) : list Event := snd r.
Definition state_of {A} (r : A * St * list Event) : St := snd (fst r).
Definition value_of {A} (r : A * St * list Event) : A := fst (fst r).

Definition IsValid (n : option nat) : bool :=
  match n with Some _ => true | None => false end.

Definition is_Succeeded (r : CommandResult) : bool :=
  match r with Succeeded => true | _ => false end.

(** ** The member functions of [FGitSourceControlMenu] *)

Definition ParametersStatus : list string := ["--porcelain --untracked-files=no"].
Definition dquote : string := String "034"%char EmptyString.
Definition ParametersStashSave : list string :=
  ["save " +:+ dquote +:+ "Stashed by Unreal Engine Git Plugin" +:+ dquote].
Definition ParametersStashPop : list string := ["pop"].

Definition Stash_Ask : string :=
  "Stash (save) all modifications of the working tree? Required to Sync/Pull!".
Definition Revert_Ask : string := "Revert all modifications of the working tree?".
Definition StashFailed : string := "Stashing away modifications failed!".
Definition UnstashFailed : string := "Unstashing previously saved modifications failed!".
Definition Sync_Unstashed : string := "Stash away all modifications before attempting to Sync!".
Definition Sync_Unsaved : string := "Save All Assets before attempting to Sync!".
Definition InProgress : string := "Source control operation already in progress".

(** [SourceControlLog.Warning(...); SourceControlLog.Notify();] *)
Definition Warn (Text : string) : Cmd unit :=
  emit (EvMessageLogWarning Text) ;;;
  emit EvMessageLogNotify.

(** Lines 91-113. *)
Definition SaveDirtyPackages (w : World) : Cmd bool :=
  emit EvSaveDirtyPackages ;;;
  let bSaved := SaveDirtyPackages_result w in
  if bSaved then ret (DirtyPackagesLeft w =? 0)%nat else ret bSaved.

(** Lines 123-135: the loop of [ListAllPackages]. *)
Fixpoint ListAllPackages_loop (w : World) (PackageRelativePaths : list string)
  : list string * list Event :=
  match PackageRelativePaths with
  | [] => ([], [])
  | Path :: rest =>
      let '(PackageNames, t) := ListAllPackages_loop w rest in
      match TryConvertFilenameToLongPackageName w Path with
      | inl PackageName => (PackageName :: PackageNames, t)
      | inr FailureReason => (PackageNames, EvMessageLogError FailureReason :: t)
      end
  end.

(** Lines 116-138. *)
Definition ListAllPackages (w : World) : Cmd (list string) :=
  λ s, let '(PackageNames, t) := ListAllPackages_loop w (FindPackagesInDirectory w) in
       (PackageNames, s, t).

(** Lines 150-165: the loop of [UnlinkPackages]. *)
Fixpoint UnlinkPackages_loop (InPackageNames : list string) (h : Resident)
  : list UPackage * Resident * list Event :=
  match InPackageNames with
  | [] => ([], h, [])
  | PackageName :: rest =>
      match Host.FindPackage h PackageName with
      | Some Package =>
          let '(h1, t1) :=
            if negb (Host.fully_loaded h Package)
            then (Host.FullyLoad Package h, [EvFlushAsyncLoading; EvFullyLoad Package])
            else (h, []) in
          let h2 := Host.ResetLoaders Package h1 in
          let '(LoadedPackages, h3, t) := UnlinkPackages_loop rest h2 in
          (Package :: LoadedPackages, h3, t1 ++ EvResetLoaders Package :: t)
      | None => UnlinkPackages_loop rest h
      end
  end.

(** Lines 141-170, on the resident packages. *)
Definition Unlink (InPackageNames : list string) (h : Resident)
  : list UPackage * Resident * list Event :=
  if (0 <? List.length InPackageNames)%nat
  then let '(LoadedPackages, h', t) := UnlinkPackages_loop InPackageNames h in
       (LoadedPackages, h',
        t ++ [EvLog VLog (LogResetLoaders (List.length LoadedPackages))])
  else ([], h, []).

(** [UnlinkPackages] touches no member of the menu. *)
Definition UnlinkPackages (InPackageNames : list string) : Cmd (list UPackage) :=
  λ s, let '(LoadedPackages, h, t) := Unlink InPackageNames (snd s) in
       (LoadedPackages, (fst s, h), t).

(** The file a resident package is backed by (lines 180-181). *)
Definition PackageFilename (w : World) (InPackage : UPackage) : string :=
  let PackageExtension :=
    if ContainsMap InPackage then GetMapPackageExtension else GetAssetPackageExtension in
  LongPackageNameToFilename w (GetName InPackage) PackageExtension.

(** The predicate handed to [RemoveAll] (lines 178-188): [true] removes. *)
Definition RemovePredicate (w : World) (InPackage : UPackage) : bool :=
  negb (FileExists w (PackageFilename w InPackage)).

(** Lines 172-195.  [InPackagesToReload] is passed by reference: the
    command returns what the caller's array holds when the call returns. *)
Definition ReloadPackages (w : World) (InPackagesToReload : list UPackage)
  : Cmd (list UPackage) :=
  emit (EvLog VLog (LogReloading (List.length InPackagesToReload))) ;;;
  let PackagesToUnload := List.filter (RemovePredicate w) InPackagesToReload in
  let InPackagesToReload' :=
    List.filter (λ p, negb (RemovePredicate w p)) InPackagesToReload in
  emit (EvReloadPackages InPackagesToReload') ;;;
  h <- getHost ;;
  putHost (Host.ReloadPackages InPackagesToReload' h) ;;;
  emit (EvUnloadPackages PackagesToUnload) ;;;
  h <- getHost ;;
  putHost (Host.UnloadPackages PackagesToUnload h) ;;;
  ret InPackagesToReload'.

(** Lines 198-234. *)
Definition StashAwayAnyModifications (w : World) : Cmd bool :=
  emit (EvRunCommand "status" ParametersStatus) ;;;
  let '(bStatusOk, InfoMessages) := StashStatusResult w in
  if bStatusOk && (0 <? List.length InfoMessages)%nat then
    emit (EvMessageDialog Stash_Ask) ;;;
    if DialogChoiceOk w then
      emit (EvRunCommand "stash" ParametersStashSave) ;;;
      set_bStashMadeBeforeSync (StashSaveOk w) ;;;
      m <- getMenu ;;
      (if negb (bStashMadeBeforeSync m) then Warn StashFailed else ret tt) ;;;
      ret true
    else ret false
  else ret true.

(** Lines 237-256. *)
Definition ReApplyStashedModifications (w : World) : Cmd unit :=
  m <- getMenu ;;
  if bStashMadeBeforeSync m then
    emit (EvRunCommand "stash" ParametersStashPop) ;;;
    if negb (StashPopOk w) then Warn UnstashFailed else ret tt
  else ret tt.

(** Lines 475-489. *)
Definition DisplayInProgressNotification (w : World) (op : OperationName) : Cmd unit :=
  m <- getMenu ;;
  if negb (IsValid (OperationInProgressNotification m)) then
    emit (EvAddNotification (NotifyInProgress op)) ;;;
    set_OperationInProgressNotification (AddNotificationResult w)
  else ret tt.

(** Lines 492-499. *)
Definition RemoveInProgressNotification : Cmd unit :=
  m <- getMenu ;;
  if IsValid (OperationInProgressNotification m) then
    emit EvExpireAndFadeout ;;;
    set_OperationInProgressNotification None
  else ret tt.

(** Lines 502-517. *)
Definition DisplaySucessNotification (op : OperationName) : Cmd unit :=
  emit (EvAddNotification (NotifySuccess op)) ;;;
  emit (EvLog VLog (LogSuccess op)).

(** Lines 520-530. *)
Definition DisplayFailureNotification (op : OperationName) : Cmd unit :=
  emit (EvAddNotification (NotifyFailure op)) ;;;
  emit (EvLog VError (LogFailure op)).

(** [ReloadPackages(PackagesToReload)]: the member is the array passed by
    reference. *)
Definition ReloadPackages_member (w : World) : Cmd unit :=
  m <- getMenu ;;
  ps <- ReloadPackages w (PackagesToReload m) ;;
  set_PackagesToReload ps.

(** Lines 297-303: the status lines kept, without their three-character
    marker. *)
Definition is_modified_or_added (Filename : string) : bool :=
  FString.StartsWith Filename " M" || FString.StartsWith Filename " A".

Definition LocalChanges (LocalChangedFiles : list string) : list string :=
  List.map (λ Filename, FString.RightChop Filename 3)
           (List.filter is_modified_or_added LocalChangedFiles).

(** Lines 281-304: [ChangedFiles] when the block ends. *)
Definition ChangedFiles (w : World) : list string :=
  DiffOutput w ++ LocalChanges (StatusOutput w).

(** Lines 307-317: the loop that fills [PackagesToUnlink]. *)
Fixpoint PackagesToUnlink_loop (w : World) (Files : list string)
  : list string * list Event :=
  match Files with
  | [] => ([], [])
  | Filename :: rest =>
      let AbsolutePath := ConvertRelativePathToFull w (PathToRepositoryRoot w) Filename in
      let '(PackagesToUnlink, t) := PackagesToUnlink_loop w rest in
      match TryConvertFilenameToLongPackageName w AbsolutePath with
      | inl PackageName =>
          (PackageName :: PackagesToUnlink,
           EvLog VWarning (LogPathAndName AbsolutePath PackageName) :: t)
      | inr _ => (PackagesToUnlink, t)
      end
  end.

Definition PackagesToUnlink (w : World) : Cmd (list string) :=
  λ s, let '(names, t) := PackagesToUnlink_loop w (ChangedFiles w) in (names, s, t).

(** Lines 258-363. *)
Definition SyncClicked (w : World) : Cmd unit :=
  m <- getMenu ;;
  if negb (IsValid (OperationInProgressNotification m)) then
    bSaved <- SaveDirtyPackages w ;;
    if bSaved then
      emit EvGetBranchName ;;;
      let DiffOrigin := "..origin/" +:+ BranchName w in
      emit (EvRunCommand "diff" ["--stat"; "--name-only"; DiffOrigin]) ;;;
      emit (EvRunCommand "status" ParametersStatus) ;;;
      names <- PackagesToUnlink w ;;
      ps <- UnlinkPackages names ;;
      set_PackagesToReload ps ;;;
      bStashed <- StashAwayAnyModifications w ;;
      if bStashed then
        emit (EvExecute OpSync) ;;;
        if is_Succeeded (ExecuteResult w) then
          DisplayInProgressNotification w OpSync
        else
          DisplayFailureNotification OpSync ;;;
          ReloadPackages_member w
      else Warn Sync_Unstashed
    else Warn Sync_Unsaved
  else Warn InProgress.

(** Lines 365-395. *)
Definition PushClicked (w : World) : Cmd unit :=
  m <- getMenu ;;
  if negb (IsValid (OperationInProgressNotification m)) then
    emit (EvExecute OpPush) ;;;
    if is_Succeeded (ExecuteResult w) then
      DisplayInProgressNotification w OpPush
    else
      DisplayFailureNotification OpPush
  else Warn InProgress.

(** Lines 397-439. *)
Definition RevertClicked (w : World) : Cmd unit :=
  m <- getMenu ;;
  if negb (IsValid (OperationInProgressNotification m)) then
    emit (EvMessageDialog Revert_Ask) ;;;
    if DialogChoiceOk w then
      names <- ListAllPackages w ;;
      ps <- UnlinkPackages names ;;
      set_PackagesToReload ps ;;;
      emit (EvExecute OpRevert) ;;;
      if is_Succeeded (ExecuteResult w) then
        DisplayInProgressNotification w OpRevert
      else
        DisplayFailureNotification OpRevert ;;;
        ReloadPackages_member w
    else ret tt
  else Warn InProgress.

(** Lines 441-472. *)
Definition RefreshClicked (w : World) : Cmd unit :=
  m <- getMenu ;;
  if negb (IsValid (OperationInProgressNotification m)) then
    emit (EvExecute OpUpdateStatus) ;;;
    if is_Succeeded (ExecuteResult w) then
      DisplayInProgressNotification w OpUpdateStatus
    else
      DisplayFailureNotification OpUpdateStatus
  else Warn InProgress.

Definition is_Sync_or_Revert (op : OperationName) : bool :=
  match op with OpSync | OpRevert => true | _ => false end.

(** Lines 532-553. *)
Definition OnSourceControlOperationComplete
    (w : World) (InOperation : OperationName) (InResult : CommandResult) : Cmd unit :=
  RemoveInProgressNotification ;;;
  (if is_Sync_or_Revert InOperation then
     ReApplyStashedModifications w ;;;
     ReloadPackages_member w
   else ret tt) ;;;
  if is_Succeeded InResult then DisplaySucessNotification InOperation
  else DisplayFailureNotification InOperation.

(** ** A concrete project, for running the handlers *)

Module Demo.

Definition Root : string := "/Proj".

Definition ToFull (InBasePath InPath : string) : string :=
  InBasePath +:+ "/" +:+ InPath.

(** A path under [/Proj/Content/] with the package extension [.uasset]
    maps to [/Game/<name>]; anything else is rejected with a reason. *)
Definition TryConvert (InFilename : string) : string + string :=
  if FString.StartsWith InFilename "/Proj/Content/"
     && String.eqb (FString.RightChop InFilename (String.length InFilename - 7)) ".uasset"
  then inl ("/Game/" +:+ String.substring 14 (String.length InFilename - 21) InFilename)
  else inr ("not a package: " +:+ InFilename).

Definition ToFilename (InLongPackageName InExtension : string) : string :=
  "/Proj/Content/" +:+ FString.RightChop InLongPackageName 6 +:+ InExtension.

Definition OnDisk (Files : list string) (f : string) : bool :=
  existsb (String.eqb f) Files.

Definition world (Found Diff Status : list string) (Files : list string)
    (StashStatus : bool * list string)
    (Saved Dialog StashOk PopOk : bool) (Exec : CommandResult) : World :=
  {| FindPackagesInDirectory := Found;
     ConvertRelativePathToFull := ToFull;
     TryConvertFilenameToLongPackageName := TryConvert;
     LongPackageNameToFilename := ToFilename;
     FileExists := OnDisk Files;
     PathToRepositoryRoot := Root;
     BranchName := "main";
     SaveDirtyPackages_result := Saved;
     DirtyPackagesLeft := 0;
     DiffOutput := Diff;
     StatusOutput := Status;
     StashStatusResult := StashStatus;
     StashSaveOk := StashOk;
     StashPopOk := PopOk;
     DialogChoiceOk := Dialog;
     ExecuteResult := Exec;
     AddNotificationResult := Some 1 |}.

Definition A : UPackage := mkPackage "/Game/A" false.
Definition B : UPackage := mkPackage "/Game/B" false.

(** Two resident packages: [A] only partially loaded, [B] fully loaded. *)
Definition resident : Resident :=
  <["/Game/A" := mkEntry false false true]>
    (<["/Game/B" := mkEntry false true true]> ∅).

Definition idle : Menu := mkMenu None [] false.
Definition busy : Menu := mkMenu (Some 1) [A] false.

(** An idle menu whose pending reload set still holds a handle from an earlier operation. *)
Definition idle_with_leftover : Menu := mkMenu None [B] false.

End Demo.

(** ** Vocabulary of the statements *)

(** The three components of what the detachment returns: the handles, the
    resident packages afterwards, the trace. *)
Definition loop_handles (r : list UPackage * Resident * list Event) := fst (fst r).
Definition loop_host (r : list UPackage * Resident * list Event) := snd (fst r).
Definition loop_trace (r : list UPackage * Resident * list Event) := snd r.


(** The file a package is backed by is on disk. *)
Definition backing_file_exists (w : World) (p : UPackage) : bool :=
  FileExists w (PackageFilename w p).

(** The four menu entries bound in [AddMenuExtension] (lines 561-628). *)
Inductive Request := GitPush | GitSync | GitRevert | GitRefresh.

Definition Clicked (r : Request) : World → Cmd unit :=
  match r with
  | GitPush => PushClicked
  | GitSync => SyncClicked
  | GitRevert => RevertClicked
  | GitRefresh => RefreshClicked
  end.

(** The outcome of converting a file name, as an option. *)
Definition converted (w : World) (Filename : string) : option string :=
  match TryConvertFilenameToLongPackageName w Filename with
  | inl PackageName => Some PackageName
  | inr _ => None
  end.

(** The error logged for a file name that does not convert. *)
Definition failure (w : World) (Filename : string) : option Event :=
  match TryConvertFilenameToLongPackageName w Filename with
  | inl _ => None
  | inr FailureReason => Some (EvMessageLogError FailureReason)
  end.

Definition AbsolutePath (w : World) (Filename : string) : string :=
  ConvertRelativePathToFull w (PathToRepositoryRoot w) Filename.

(** The test of line 299 on a status line, written without [StartsWith]: a
    blank first column and, in the second column, the letter M or A in
    either case.  This is the test the code makes, not every line that git
    marks as modified or added: a line whose first column holds the letter
    (a staged change, printed as [M ], [A ], [MM] or [AM]) does not pass. *)
Definition passes_status_test (line : string) : Prop :=
  ∃ c rest, line = String " " (String c rest)
            ∧ (c = "M" ∨ c = "m" ∨ c = "A" ∨ c = "a")%char.

(** What [SaveDirtyPackages] returns. *)
Definition saved (w : World) : bool :=
  SaveDirtyPackages_result w && (DirtyPackagesLeft w =? 0)%nat.

(** The working tree has modifications: the status command succeeded and
    printed something (line 211). *)
Definition stash_needed (w : World) : bool :=
  fst (StashStatusResult w) && (0 <? List.length (snd (StashStatusResult w)))%nat.

(** Assignments to one member of the menu. *)
Definition with_stash_flag (b : bool) (m : Menu) : Menu :=
  mkMenu (OperationInProgressNotification m) (PackagesToReload m) b.

Definition with_pending (ps : list UPackage) (m : Menu) : Menu :=
  mkMenu (OperationInProgressNotification m) ps (bStashMadeBeforeSync m).

(** The names handed to [UnlinkPackages] by [SyncClicked]. *)
Definition sync_names (w : World) : list string :=
  omap (λ f, converted w (AbsolutePath w f)) (ChangedFiles w).

Inductive SyncStep := StepSave | StepStash | StepDetach | StepPull.

Inductive CompletionStep := StepUnstash | StepReconcile | StepNotify.

Definition is_stash_pop (Command : string) (Parameters : list string) : bool :=
  String.eqb Command "stash" && existsb (String.eqb "pop") Parameters.

Definition is_stash_save (Command : string) (Parameters : list string) : bool :=
  String.eqb Command "stash" && negb (existsb (String.eqb "pop") Parameters).

(** The step of the sync that an event of the click handler belongs to. *)
Definition sync_step (e : Event) : option SyncStep :=
  match e with
  | EvSaveDirtyPackages => Some StepSave
  | EvRunCommand c ps => if is_stash_save c ps then Some StepStash else None
  | EvResetLoaders _ => Some StepDetach
  | EvExecute OpSync => Some StepPull
  | _ => None
  end.

(** The step of the completion that an event of the callback belongs to. *)
Definition completion_step (e : Event) : option CompletionStep :=
  match e with
  | EvRunCommand c ps => if is_stash_pop c ps then Some StepUnstash else None
  | EvReloadPackages _ | EvUnloadPackages _ => Some StepReconcile
  | EvAddNotification (NotifySuccess _) | EvAddNotification (NotifyFailure _) =>
      Some StepNotify
  | _ => None
  end.

Definition sync_steps (t : list Event) : list SyncStep := omap sync_step t.
Definition completion_steps (t : list Event) : list CompletionStep := omap completion_step t.

(** The order save, stash, detach, pull. *)
Definition claimed_rank (x : SyncStep) : nat :=
  match x with StepSave => 0 | StepStash => 1 | StepDetach => 2 | StepPull => 3 end.

Fixpoint nondecreasing (l : list nat) : bool :=
  match l with
  | a :: (b :: _) as l' => (a <=? b)%nat && nondecreasing l'
  | _ => true
  end.

Definition follows_claimed_order (l : list SyncStep) : bool :=
  nondecreasing (List.map claimed_rank l).

(** The two calls of a reconciliation. *)
Definition is_reconcile (e : Event) : bool :=
  match e with
  | EvReloadPackages _ | EvUnloadPackages _ => true
  | _ => false
  end.

Definition is_stash_command (e : Event) : bool :=
  match e with
  | EvRunCommand Command _ => String.eqb Command "stash"
  | _ => false
  end.

(** Assignment to the notification member. *)
Definition with_notification (n : option nat) (m : Menu) : Menu :=
  mkMenu n (PackagesToReload m) (bStashMadeBeforeSync m).

(** The operation a menu entry executes. *)
Definition OperationOf (r : Request) : OperationName :=
  match r with
  | GitPush => OpPush
  | GitSync => OpSync
  | GitRevert => OpRevert
  | GitRefresh => OpUpdateStatus
  end.

(** The prompts of a request are all answered so that it reaches
    [Provider.Execute]: assets saved and stash prompt not declined for a sync,
    confirmation given for a revert. *)
Definition reaches_Execute (r : Request) (w : World) : bool :=
  match r with
  | GitSync => saved w && negb (stash_needed w && negb (DialogChoiceOk w))
  | GitRevert => DialogChoiceOk w
  | GitPush | GitRefresh => true
  end.

(** The log lines written while the changed files are resolved. *)
Definition resolution_trace (w : World) : list Event :=
  snd (PackagesToUnlink_loop w (ChangedFiles w)).

(** What [StashAwayAnyModifications] does, as a trace. *)
Definition stash_trace (w : World) : list Event :=
  EvRunCommand "status" ParametersStatus ::
  (if stash_needed w then
     EvMessageDialog Stash_Ask ::
     (if DialogChoiceOk w then
        EvRunCommand "stash" ParametersStashSave ::
        (if StashSaveOk w then []
         else [EvMessageLogWarning StashFailed; EvMessageLogNotify])
      else [])
   else []).

(** What [ReloadPackages] does on a list, as a trace. *)
Definition reconcile_trace (w : World) (ps : list UPackage) : list Event :=
  [EvLog VLog (LogReloading (List.length ps));
   EvReloadPackages (List.filter (backing_file_exists w) ps);
   EvUnloadPackages (List.filter (RemovePredicate w) ps)].

(** What [ReApplyStashedModifications] does, as a trace. *)
Definition unstash_trace (w : World) (m : Menu) : list Event :=
  if bStashMadeBeforeSync m then
    EvRunCommand "stash" ParametersStashPop ::
    (if StashPopOk w then []
     else [EvMessageLogWarning UnstashFailed; EvMessageLogNotify])
  else [].

(** The notification that reports a result, with its log line. *)
Definition result_trace (op : OperationName) (res : CommandResult) : list Event :=
  if is_Succeeded res
  then [EvAddNotification (NotifySuccess op); EvLog VLog (LogSuccess op)]
  else [EvAddNotification (NotifyFailure op); EvLog VError (LogFailure op)].

(** Kinds of events. *)
Definition is_run_command (e : Event) : bool :=
  match e with EvRunCommand _ _ => true | _ => false end.

Definition is_host_call (e : Event) : bool :=
  match e with
  | EvFlushAsyncLoading | EvFullyLoad _ | EvResetLoaders _
  | EvReloadPackages _ | EvUnloadPackages _ => true
  | _ => false
  end.

Definition is_prompt (e : Event) : bool :=
  match e with EvSaveDirtyPackages | EvMessageDialog _ => true | _ => false end.

Definition is_execute (e : Event) : bool :=
  match e with EvExecute _ => true | _ => false end.

Definition is_notification (e : Event) : bool :=
  match e with EvAddNotification _ => true | _ => false end.

Definition is_expire (e : Event) : bool :=
  match e with EvExpireAndFadeout => true | _ => false end.

Definition is_load_before_reset (e : Event) : bool :=
  match e with EvFlushAsyncLoading | EvFullyLoad _ => true | _ => false end.

(** Events that act on the repository, on the packages or that prompt the
    user. *)
Definition touches_assets_or_repository (e : Event) : bool :=
  is_run_command e || is_host_call e || is_prompt e.

(** A run that leaves the pending reload set, the stash flag and the
    resident packages as they were, and that neither runs a git command nor
    calls the asset host nor prompts. *)
Definition leaves_assets_alone (s : St) (r : unit * St * list Event) : Prop :=
  PackagesToReload (fst (state_of r)) = PackagesToReload (fst s)
  ∧ bStashMadeBeforeSync (fst (state_of r)) = bStashMadeBeforeSync (fst s)
  ∧ snd (state_of r) = snd s
  ∧ List.filter touches_assets_or_repository (trace_of r) = [].

(** The warning of a rejected request. *)
Definition is_in_progress_warning (e : Event) : bool :=
  match e with
  | EvMessageLogWarning Text => String.eqb Text InProgress
  | _ => false
  end.

(** The package names a request hands to [UnlinkPackages], and the handles
    it gets back when the resident packages are [h]. *)
Definition names_to_unlink (r : Request) (w : World) : list string :=
  match r with
  | GitSync => sync_names w
  | GitRevert => omap (converted w) (FindPackagesInDirectory w)
  | GitPush | GitRefresh => []
  end.

Definition detached (r : Request) (w : World) (h : Resident) : list UPackage :=
  omap (Host.FindPackage h) (names_to_unlink r w).

(** A resident package once detached: fully loaded, without loader. *)
Definition detached_entry (e : PackageEntry) : PackageEntry :=
  mkEntry (entry_map e) true false.

(** * Properties *)

(** ** Generic facts about traces and the host *)

Lemma run_app h t1 t2 :
  Host.run h (t1 ++ t2) = match Host.run h t1 with
                          | Some h1 => Host.run h1 t2
                          | None => None
                          end.
Proof.
  revert h. induction t1 as [|e t1 IH]; intros h; simpl; [done|].
  destruct (Host.step h e); [apply IH | done].
Qed.

Lemma elem_of_bfilter {A} (f : A → bool) (l : list A) (x : A) :
  x ∈ List.filter f l ↔ x ∈ l ∧ f x = true.
Proof. rewrite !list_elem_of_In. apply filter_In. Qed.

Lemma omap_pointwise {A B} (f g : A → option B) (l : list A) :
  (∀ x, f x = g x) → omap f l = omap g l.
Proof.
  intros Hfg. induction l as [|x l IH]; [done|].
  cbn. rewrite Hfg, IH. done.
Qed.

Lemma FindPackage_FullyLoad p h n :
  Host.FindPackage (Host.FullyLoad p h) n = Host.FindPackage h n.
Proof.
  unfold Host.FindPackage, Host.FullyLoad.
  destruct (decide (GetName p = n)) as [->|Hne].
  - rewrite lookup_alter_eq. by destruct (h !! n).
  - by rewrite lookup_alter_ne.
Qed.

Lemma FindPackage_ResetLoaders p h n :
  Host.FindPackage (Host.ResetLoaders p h) n = Host.FindPackage h n.
Proof.
  unfold Host.FindPackage, Host.ResetLoaders.
  destruct (decide (GetName p = n)) as [->|Hne].
  - rewrite lookup_alter_eq. by destruct (h !! n).
  - by rewrite lookup_alter_ne.
Qed.

Lemma FindPackage_name h n p : Host.FindPackage h n = Some p → GetName p = n.
Proof. unfold Host.FindPackage. destruct (h !! n); naive_solver. Qed.

Lemma fully_loaded_FullyLoad h n p :
  Host.FindPackage h n = Some p → Host.fully_loaded (Host.FullyLoad p h) p = true.
Proof.
  unfold Host.FindPackage, Host.fully_loaded, Host.FullyLoad.
  destruct (h !! n) as [e|] eqn:He; [|done].
  intros [= <-]. simpl. by rewrite lookup_alter_eq, He.
Qed.

(** ** Detachment: [UnlinkPackages] *)

(** One iteration on a resident name, as an equation. *)
Lemma loop_resident n rest h p :
  Host.FindPackage h n = Some p →
  UnlinkPackages_loop (n :: rest) h =
    let h1 := if Host.fully_loaded h p then h else Host.FullyLoad p h in
    let r := UnlinkPackages_loop rest (Host.ResetLoaders p h1) in
    (p :: loop_handles r, loop_host r,
     (if Host.fully_loaded h p then [] else [EvFlushAsyncLoading; EvFullyLoad p])
       ++ EvResetLoaders p :: loop_trace r).
Proof.
  intros Hf. simpl. rewrite Hf.
  destruct (Host.fully_loaded h p); simpl;
    by destruct (UnlinkPackages_loop rest _) as [[??]?].
Qed.

Lemma loop_absent n rest h :
  Host.FindPackage h n = None →
  UnlinkPackages_loop (n :: rest) h = UnlinkPackages_loop rest h.
Proof. intros Hf. simpl. by rewrite Hf. Qed.

(** The handles returned are the resident names, in discovery order. *)
Lemma loop_handles_omap names h :
  loop_handles (UnlinkPackages_loop names h) = omap (Host.FindPackage h) names.
Proof.
  revert h. induction names as [|n rest IH]; intros h; [done|].
  destruct (Host.FindPackage h n) as [p|] eqn:Hf.
  - rewrite (loop_resident _ _ _ _ Hf). cbn [loop_handles fst omap list_omap].
    simpl. rewrite Hf. f_equal. rewrite IH.
    apply omap_pointwise. intros m.
    rewrite FindPackage_ResetLoaders. destruct (Host.fully_loaded h p); [done|].
    apply FindPackage_FullyLoad.
  - rewrite (loop_absent _ _ _ Hf). simpl. rewrite Hf. apply IH.
Qed.

(** The host accepts the whole trace: no loader is reset on a package
    that is not fully loaded at that moment. *)
Lemma loop_run names h :
  Host.run h (loop_trace (UnlinkPackages_loop names h))
  = Some (loop_host (UnlinkPackages_loop names h)).
Proof.
  revert h. induction names as [|n rest IH]; intros h; [done|].
  destruct (Host.FindPackage h n) as [p|] eqn:Hf.
  - rewrite (loop_resident _ _ _ _ Hf). cbn [loop_host loop_trace fst snd].
    destruct (Host.fully_loaded h p) eqn:Hl; simpl.
    + rewrite Hl. apply IH.
    + rewrite (fully_loaded_FullyLoad _ _ _ Hf). apply IH.
  - rewrite (loop_absent _ _ _ Hf). apply IH.
Qed.

(** Only host calls are made, each on a resident package named in the
    input. *)
Lemma loop_events names h e :
  e ∈ loop_trace (UnlinkPackages_loop names h) →
  e = EvFlushAsyncLoading
  ∨ ∃ p, (e = EvFullyLoad p ∨ e = EvResetLoaders p)
         ∧ GetName p ∈ names ∧ Host.FindPackage h (GetName p) = Some p.
Proof.
  revert h. induction names as [|n rest IH]; intros h; [by intros ?%elem_of_nil|].
  destruct (Host.FindPackage h n) as [p|] eqn:Hf.
  - rewrite (loop_resident _ _ _ _ Hf). cbn [loop_trace snd].
    pose proof (FindPackage_name _ _ _ Hf) as Hn.
    assert (∀ q, Host.FindPackage
              (Host.ResetLoaders p (if Host.fully_loaded h p then h else Host.FullyLoad p h))
              (GetName q) = Host.FindPackage h (GetName q)) as Hsame.
    { intros q. rewrite FindPackage_ResetLoaders.
      destruct (Host.fully_loaded h p); [done|apply FindPackage_FullyLoad]. }
    intros [He|He]%elem_of_app.
    + destruct (Host.fully_loaded h p); [by apply elem_of_nil in He|].
      apply elem_of_cons in He as [->|He]; [by left|].
      apply list_elem_of_singleton in He as ->. right. exists p.
      rewrite Hn. split; [by left|]. split; [left|done].
    + apply elem_of_cons in He as [->|He].
      * right. exists p. rewrite Hn. split; [by right|]. split; [left|done].
      * apply IH in He as [->|(q & Hq & Hin & Hfq)]; [by left|].
        right. exists q. split; [done|]. split; [by right|]. by rewrite <-Hsame.
  - rewrite (loop_absent _ _ _ Hf). intros He.
    apply IH in He as [->|(q & Hq & Hin & Hfq)]; [by left|].
    right. exists q. split; [done|]. split; [by right|done].
Qed.




(** ** Reconciliation: [ReloadPackages] *)

Lemma keep_is_backing_file_exists w l :
  List.filter (λ p, negb (RemovePredicate w p)) l = List.filter (backing_file_exists w) l.
Proof.
  induction l as [|p l IH]; [done|]. simpl. unfold RemovePredicate at 1.
  rewrite negb_involutive. fold (backing_file_exists w p). by rewrite IH.
Qed.

Lemma ReloadPackages_eq w pending s :
  ReloadPackages w pending s =
    let kept := List.filter (backing_file_exists w) pending in
    let gone := List.filter (RemovePredicate w) pending in
    (kept,
     (fst s, Host.UnloadPackages gone (Host.ReloadPackages kept (snd s))),
     [EvLog VLog (LogReloading (List.length pending));
      EvReloadPackages kept; EvUnloadPackages gone]).
Proof.
  unfold ReloadPackages, bind, emit, getHost, putHost, ret. cbn.
  by rewrite keep_is_backing_file_exists.
Qed.

(** C6.  [ReloadPackages] partitions the pending handles by the existence
    of their backing file: one call reloads exactly the handles whose file is
    present, one call unloads exactly the handles whose file is absent (so no
    absent-file handle is ever handed to the reload), and both calls are made,
    in the trace and on the host, before the function returns. *)
Theorem C6_reconcile_partitions_by_file_existence
    (w : World) (pending : list UPackage) (s : St) :
  ∃ reloaded unloaded,
    trace_of (ReloadPackages w pending s)
      = [EvLog VLog (LogReloading (List.length pending));
         EvReloadPackages reloaded; EvUnloadPackages unloaded]
    ∧ (∀ p, p ∈ reloaded ↔ p ∈ pending ∧ FileExists w (PackageFilename w p) = true)
    ∧ (∀ p, p ∈ unloaded ↔ p ∈ pending ∧ FileExists w (PackageFilename w p) = false)
    ∧ Permutation (reloaded ++ unloaded) pending
    ∧ snd (state_of (ReloadPackages w pending s))
      = Host.UnloadPackages unloaded (Host.ReloadPackages reloaded (snd s)).
Proof.
  rewrite ReloadPackages_eq. cbn zeta.
  exists (List.filter (backing_file_exists w) pending),
         (List.filter (RemovePredicate w) pending).
  split; [done|]. split; [|split; [|split; [|done]]].
  - intros p. by rewrite elem_of_bfilter.
  - intros p. rewrite elem_of_bfilter. unfold RemovePredicate.
    by rewrite negb_true_iff.
  - clear s. induction pending as [|p l IH]; [done|]. simpl.
    unfold RemovePredicate at 1. unfold backing_file_exists at 1.
    destruct (FileExists w (PackageFilename w p)); simpl.
    + by constructor.
    + rewrite <-Permutation_middle. by constructor.
Qed.

(** C10.  The array passed by reference to [ReloadPackages] holds, when the
    call returns, exactly the handles whose backing file exists, in their
    original order, and these are the handles that were reloaded; the handles
    removed from it are the ones that were unloaded.  For the member
    [PackagesToReload], passed at lines 340, 429 and 541, this is its value
    after the call. *)
Theorem C10_reload_filters_callers_list_in_place
    (w : World) (pending : list UPackage) (s : St) :
  let kept := List.filter (λ p, FileExists w (PackageFilename w p)) pending in
  let removed := List.filter (λ p, negb (FileExists w (PackageFilename w p))) pending in
  value_of (ReloadPackages w pending s) = kept
  ∧ trace_of (ReloadPackages w pending s)
    = [EvLog VLog (LogReloading (List.length pending));
       EvReloadPackages kept; EvUnloadPackages removed]
  ∧ PackagesToReload (fst (state_of (ReloadPackages_member w s)))
    = List.filter (λ p, FileExists w (PackageFilename w p)) (PackagesToReload (fst s)).
Proof.
  cbn zeta. rewrite ReloadPackages_eq. cbn zeta. split; [done|]. split; [done|].
  unfold ReloadPackages_member, bind, getMenu, set_PackagesToReload, putMenu.
  rewrite ReloadPackages_eq. done.
Qed.

(** ** Requests while an operation is in progress *)

(** C4.  A Push, Sync, Revert or Refresh request made while the
    progress-notification handle is valid returns at once: the only things it
    does are the "operation already in progress" warning and its
    notification (so no command is run, no operation is executed and nothing
    is stored for later), and the whole state, the menu's three members and
    the resident packages, is left as it was. *)
Theorem C4_request_while_in_progress_is_rejected (r : Request) (w : World) (s : St) :
  IsValid (OperationInProgressNotification (fst s)) = true →
  Clicked r w s = (tt, s, [EvMessageLogWarning InProgress; EvMessageLogNotify]).
Proof.
  destruct s as [m h]. cbn [fst]. intros Hbusy.
  destruct r; cbn [Clicked];
    unfold SyncClicked, PushClicked, RevertClicked, RefreshClicked, bind, getMenu;
    cbn [fst snd]; rewrite Hbusy; reflexivity.
Qed.

Lemma C4_request_while_in_progress_is_rejected_witness :
  Clicked GitPush
          (Demo.world [] [] [] [] (true, []) true true true true Succeeded)
          (Demo.busy, Demo.resident)
  = (tt, (Demo.busy, Demo.resident),
     [EvMessageLogWarning InProgress; EvMessageLogNotify]).
Proof.
  apply (C4_request_while_in_progress_is_rejected GitPush). reflexivity.
Defined.

(** ** Resolution of paths to package names *)

Lemma ListAllPackages_loop_eq w paths :
  ListAllPackages_loop w paths = (omap (converted w) paths, omap (failure w) paths).
Proof.
  induction paths as [|p l IH]; [done|]. cbn. rewrite IH. unfold converted, failure.
  by destruct (TryConvertFilenameToLongPackageName w p).
Qed.

Lemma PackagesToUnlink_loop_names w files :
  fst (PackagesToUnlink_loop w files) = omap (λ f, converted w (AbsolutePath w f)) files.
Proof.
  induction files as [|f l IH]; [done|]. cbn.
  destruct (PackagesToUnlink_loop w l) as [names t]. cbn in IH. subst names.
  unfold converted, AbsolutePath.
  by destruct (TryConvertFilenameToLongPackageName w _).
Qed.

Lemma PackagesToUnlink_value w s :
  value_of (PackagesToUnlink w s)
  = omap (λ f, converted w (AbsolutePath w f)) (ChangedFiles w).
Proof.
  unfold PackagesToUnlink, value_of. rewrite <-PackagesToUnlink_loop_names.
  by destruct (PackagesToUnlink_loop w (ChangedFiles w)).
Qed.

Lemma ToLower_space c : Ascii.eqb (FString.ToLower c) " " = true ↔ c = " "%char.
Proof.
  rewrite Ascii.eqb_eq.
  destruct c as [[] [] [] [] [] [] [] []]; vm_compute; split; congruence.
Qed.

Lemma ToLower_m c :
  Ascii.eqb (FString.ToLower c) "m" = true ↔ (c = "M" ∨ c = "m")%char.
Proof.
  rewrite Ascii.eqb_eq.
  destruct c as [[] [] [] [] [] [] [] []]; vm_compute; split;
    first [congruence | intros [?|?]; congruence | by left | by right].
Qed.

Lemma ToLower_a c :
  Ascii.eqb (FString.ToLower c) "a" = true ↔ (c = "A" ∨ c = "a")%char.
Proof.
  rewrite Ascii.eqb_eq.
  destruct c as [[] [] [] [] [] [] [] []]; vm_compute; split;
    first [congruence | intros [?|?]; congruence | by left | by right].
Qed.

Lemma is_modified_or_added_test line :
  is_modified_or_added line = true ↔ passes_status_test line.
Proof.
  unfold is_modified_or_added, passes_status_test, FString.StartsWith.
  destruct line as [|c1 [|c2 rest]].
  - split; [done|]. by intros (? & ? & ? & ?).
  - cbn. rewrite !andb_false_r. split; [done|]. by intros (? & ? & ? & ?).
  - cbn -[FString.ToLower Ascii.eqb]. rewrite !andb_true_r.
    change (FString.ToLower " ") with " "%char.
    change (FString.ToLower "M") with "m"%char.
    change (FString.ToLower "A") with "a"%char.
    rewrite orb_true_iff, !andb_true_iff, !ToLower_space, ToLower_m, ToLower_a.
    split.
    + intros [[-> H]|[-> H]]; exists c2, rest; (split; [done|]); tauto.
    + intros (c & rest' & [= -> <- <-] & H). tauto.
Qed.

(** What [SyncClicked] computes as changed paths: the lines printed by the
    diff against [..origin/<branch>] together with the status lines that pass
    the test of line 299, without their first three characters; a status line
    marked as a deletion or as untracked never passes; and a package name is
    resolved from a changed path exactly when the conversion of the path made
    absolute against the repository root succeeds with that name. *)
Lemma changed_files_as_computed (w : World) (s : St) :
  (∀ path, path ∈ ChangedFiles w ↔
     path ∈ DiffOutput w
     ∨ ∃ line, line ∈ StatusOutput w ∧ passes_status_test line
               ∧ path = FString.RightChop line 3)
  ∧ (∀ name, name ∈ value_of (PackagesToUnlink w s) ↔
       ∃ path, path ∈ ChangedFiles w
               ∧ TryConvertFilenameToLongPackageName w
                   (ConvertRelativePathToFull w (PathToRepositoryRoot w) path)
                 = inl name)
  ∧ (∀ rest, ¬ passes_status_test (" D" +:+ rest)
             ∧ ¬ passes_status_test ("D " +:+ rest)
             ∧ ¬ passes_status_test ("??" +:+ rest)).
Proof.
  split; [|split].
  - intros path. unfold ChangedFiles, LocalChanges.
    rewrite elem_of_app, !list_elem_of_In, in_map_iff.
    split; (intros [H|H]; [by left|right]).
    + destruct H as (line & <- & Hin). apply filter_In in Hin as [Hin Hm].
      exists line. by rewrite list_elem_of_In, <-is_modified_or_added_test.
    + destruct H as (line & Hin & Hm & ->). exists line. split; [done|].
      apply filter_In. by rewrite <-list_elem_of_In, is_modified_or_added_test.
  - intros name. rewrite PackagesToUnlink_value, list_elem_of_omap.
    unfold converted, AbsolutePath.
    split; intros (path & Hin & Hc); exists path; (split; [done|]).
    + by destruct (TryConvertFilenameToLongPackageName w _) as [n|]; simplify_eq.
    + by rewrite Hc.
  - intros rest. rewrite <-!is_modified_or_added_test. by cbn.
Qed.

(** Whatever follows it, a status line whose first column is not blank does
    not pass the test of line 299: every line git prints for a change that is
    staged is left out of the changed paths. *)
Lemma staged_line_is_dropped (x : ascii) (rest : string) :
  x ≠ " "%char → is_modified_or_added (String x rest) = false.
Proof.
  intros Hx. unfold is_modified_or_added, FString.StartsWith.
  cbn -[FString.ToLower Ascii.eqb].
  change (FString.ToLower " ") with " "%char.
  destruct (Ascii.eqb (FString.ToLower x) " ") eqn:E; [|done].
  by apply ToLower_space in E.
Qed.

(** C5.  A sync on a working tree whose uncommitted changes are staged: git
    prints [M  Content/B.uasset] (modification staged), [MM Content/A.uasset]
    (staged, then modified again) and [A  Content/New.uasset] (addition
    staged).  None of the three paths is among the changed paths, so the
    resolved set is empty although the diff and the status were both read; the
    two resident packages keep their loader, and the handler goes on to stash
    these very files and to execute the pull. *)
Theorem C5_staged_changes_are_not_in_the_changed_set :
  let lines := ["M  Content/B.uasset"; "MM Content/A.uasset"; "A  Content/New.uasset"] in
  let w := Demo.world [] [] lines
                      ["/Proj/Content/A.uasset"; "/Proj/Content/B.uasset";
                       "/Proj/Content/New.uasset"]
                      (true, lines) true true true true Succeeded in
  let r := SyncClicked w (Demo.idle, Demo.resident) in
  StatusOutput w = lines
  ∧ ChangedFiles w = []
  ∧ value_of (PackagesToUnlink w (Demo.idle, Demo.resident)) = []
  ∧ trace_of r
    = [EvSaveDirtyPackages; EvGetBranchName;
       EvRunCommand "diff" ["--stat"; "--name-only"; "..origin/main"];
       EvRunCommand "status" ParametersStatus;
       EvRunCommand "status" ParametersStatus;
       EvMessageDialog Stash_Ask;
       EvRunCommand "stash" ParametersStashSave;
       EvExecute OpSync;
       EvAddNotification (NotifyInProgress OpSync)]
  ∧ PackagesToReload (fst (state_of r)) = []
  ∧ snd (state_of r) !! "/Game/A" = Some (mkEntry false false true)
  ∧ snd (state_of r) !! "/Game/B" = Some (mkEntry false true true).
Proof. by vm_compute. Qed.

(** C8 fails in the sync loop: [README.md] is a changed file whose
    conversion fails, and the whole run of [SyncClicked] writes nothing about
    it to the message log or to the output log. *)
Lemma C8_sync_drops_conversion_failure_silently :
  let w := Demo.world [] ["README.md"] [] [] (true, []) true true true true Succeeded in
  ChangedFiles w = ["README.md"]
  ∧ TryConvertFilenameToLongPackageName w
      (ConvertRelativePathToFull w (PathToRepositoryRoot w) "README.md")
    = inr "not a package: /Proj/README.md"
  ∧ trace_of (SyncClicked w (Demo.idle, Demo.resident))
    = [EvSaveDirtyPackages; EvGetBranchName;
       EvRunCommand "diff" ["--stat"; "--name-only"; "..origin/main"];
       EvRunCommand "status" ParametersStatus;
       EvRunCommand "status" ParametersStatus;
       EvExecute OpSync;
       EvAddNotification (NotifyInProgress OpSync)].
Proof. by vm_compute. Qed.

(** C8, amended.  In the full scan of [ListAllPackages] every path whose
    conversion fails is reported with one error in the message log carrying
    its failure reason (the trace is exactly these errors, in order), and the
    names returned are exactly the successful conversions, in order: a
    failing path is left out and the paths after it are still converted.  In
    the loop of [SyncClicked] the names kept are likewise exactly the
    successful conversions of the absolute paths, in order. *)
Theorem C8_conversion_failure_excluded_without_abort (w : World) (s : St) :
  value_of (ListAllPackages w s) = omap (converted w) (FindPackagesInDirectory w)
  ∧ trace_of (ListAllPackages w s) = omap (failure w) (FindPackagesInDirectory w)
  ∧ (∀ Path FailureReason,
       Path ∈ FindPackagesInDirectory w →
       TryConvertFilenameToLongPackageName w Path = inr FailureReason →
       EvMessageLogError FailureReason ∈ trace_of (ListAllPackages w s))
  ∧ value_of (PackagesToUnlink w s)
    = omap (λ Filename, converted w (AbsolutePath w Filename)) (ChangedFiles w).
Proof.
  unfold ListAllPackages, value_of, trace_of.
  rewrite ListAllPackages_loop_eq. cbn [fst snd].
  split; [done|]. split; [done|]. split; [|apply PackagesToUnlink_value].
  intros Path reason Hin Hc. apply list_elem_of_omap. exists Path.
  split; [done|]. unfold failure. by rewrite Hc.
Qed.

Lemma C8_conversion_failure_excluded_without_abort_witness :
  EvMessageLogError "not a package: /Proj/Content/notes.txt"
  ∈ trace_of (ListAllPackages
                (Demo.world ["/Proj/Content/notes.txt"; "/Proj/Content/A.uasset"]
                            [] [] [] (true, []) true true true true Succeeded)
                (Demo.idle, Demo.resident)).
Proof.
  apply (C8_conversion_failure_excluded_without_abort
           (Demo.world ["/Proj/Content/notes.txt"; "/Proj/Content/A.uasset"]
                       [] [] [] (true, []) true true true true Succeeded)
           (Demo.idle, Demo.resident)) with (Path := "/Proj/Content/notes.txt").
  - apply list_elem_of_here.
  - reflexivity.
Defined.

(** ** The handlers, step by step *)

Lemma SaveDirtyPackages_eq w s :
  SaveDirtyPackages w s = (saved w, s, [EvSaveDirtyPackages]).
Proof.
  unfold SaveDirtyPackages, saved, bind, emit, ret.
  by destruct (SaveDirtyPackages_result w).
Qed.

Lemma StashAwayAnyModifications_eq w m h :
  StashAwayAnyModifications w (m, h) =
    if stash_needed w then
      if DialogChoiceOk w then
        (true, (with_stash_flag (StashSaveOk w) m, h),
         [EvRunCommand "status" ParametersStatus; EvMessageDialog Stash_Ask;
          EvRunCommand "stash" ParametersStashSave]
         ++ (if StashSaveOk w then []
             else [EvMessageLogWarning StashFailed; EvMessageLogNotify]))
      else (false, (m, h),
            [EvRunCommand "status" ParametersStatus; EvMessageDialog Stash_Ask])
    else (true, (m, h), [EvRunCommand "status" ParametersStatus]).
Proof.
  unfold StashAwayAnyModifications, stash_needed, bind, emit, ret.
  destruct (StashStatusResult w) as [ok lines]. cbn [fst snd].
  destruct (ok && _); [|done].
  destruct (DialogChoiceOk w); [|done].
  unfold set_bStashMadeBeforeSync, Warn, bind, getMenu, putMenu, emit. cbn.
  by destruct (StashSaveOk w).
Qed.

Lemma Unlink_handles names h :
  loop_handles (Unlink names h) = omap (Host.FindPackage h) names.
Proof.
  unfold Unlink. destruct names as [|n l]; [done|].
  cbn [List.length Nat.ltb Nat.leb].
  rewrite <-loop_handles_omap. unfold loop_handles.
  by destruct (UnlinkPackages_loop (n :: l) h) as [[??]?].
Qed.

Lemma UnlinkPackages_eq names m h :
  UnlinkPackages names (m, h)
  = (omap (Host.FindPackage h) names,
     (m, loop_host (Unlink names h)), loop_trace (Unlink names h)).
Proof.
  unfold UnlinkPackages. cbn [fst snd]. rewrite <-Unlink_handles.
  by destruct (Unlink names h) as [[??]?].
Qed.

Lemma PackagesToUnlink_split w s :
  PackagesToUnlink w s
  = (value_of (PackagesToUnlink w s), s, trace_of (PackagesToUnlink w s)).
Proof.
  unfold PackagesToUnlink, value_of, trace_of.
  by destruct (PackagesToUnlink_loop w (ChangedFiles w)).
Qed.

Lemma ListAllPackages_split w s :
  ListAllPackages w s
  = (omap (converted w) (FindPackagesInDirectory w), s,
     omap (failure w) (FindPackagesInDirectory w)).
Proof. unfold ListAllPackages. by rewrite ListAllPackages_loop_eq. Qed.

Lemma ReloadPackages_member_eq w m h :
  ReloadPackages_member w (m, h) =
    let kept := List.filter (backing_file_exists w) (PackagesToReload m) in
    let gone := List.filter (RemovePredicate w) (PackagesToReload m) in
    (tt, (with_pending kept m,
          Host.UnloadPackages gone (Host.ReloadPackages kept h)),
     [EvLog VLog (LogReloading (List.length (PackagesToReload m)));
      EvReloadPackages kept; EvUnloadPackages gone]).
Proof.
  unfold ReloadPackages_member, bind, getMenu, set_PackagesToReload, putMenu.
  cbn [fst snd]. by rewrite ReloadPackages_eq.
Qed.

(** ** The order of the steps of a sync *)

Lemma sync_steps_resolution w files :
  sync_steps (snd (PackagesToUnlink_loop w files)) = [].
Proof.
  induction files as [|f l IH]; [done|]. cbn.
  destruct (PackagesToUnlink_loop w l) as [names t]. cbn in IH.
  by destruct (TryConvertFilenameToLongPackageName w _).
Qed.

Lemma sync_steps_PackagesToUnlink w s :
  sync_steps (trace_of (PackagesToUnlink w s)) = [].
Proof.
  unfold PackagesToUnlink, trace_of.
  pose proof (sync_steps_resolution w (ChangedFiles w)) as H.
  by destruct (PackagesToUnlink_loop w (ChangedFiles w)).
Qed.

Lemma sync_steps_loop names h :
  sync_steps (loop_trace (UnlinkPackages_loop names h))
  = replicate (List.length (loop_handles (UnlinkPackages_loop names h))) StepDetach.
Proof.
  revert h. induction names as [|n rest IH]; intros h; [done|].
  destruct (Host.FindPackage h n) as [p|] eqn:Hf.
  - rewrite (loop_resident _ _ _ _ Hf). cbn [loop_trace loop_handles fst snd].
    unfold sync_steps in *. rewrite omap_app. cbn [List.length replicate].
    destruct (Host.fully_loaded h p); cbn; by rewrite IH.
  - rewrite (loop_absent _ _ _ Hf). apply IH.
Qed.

Lemma sync_steps_Unlink names h :
  sync_steps (loop_trace (Unlink names h))
  = replicate (List.length (omap (Host.FindPackage h) names)) StepDetach.
Proof.
  rewrite <-Unlink_handles. unfold Unlink. destruct (0 <? _)%nat; [|done].
  pose proof (sync_steps_loop names h) as H.
  destruct (UnlinkPackages_loop names h) as [[ps h'] t].
  unfold loop_trace, loop_handles in *. cbn [fst snd] in *.
  unfold sync_steps in *. by rewrite omap_app, H, app_nil_r.
Qed.

(** C3 fails: with two changed resident packages and a modified working
    tree, the loaders are reset before the stash is made. *)
Lemma C3_detach_precedes_stash :
  let w := Demo.world [] ["Content/A.uasset"] [" M Content/B.uasset"]
                      ["/Proj/Content/A.uasset"; "/Proj/Content/B.uasset"]
                      (true, [" M Content/B.uasset"])
                      true true true true Succeeded in
  sync_steps (trace_of (SyncClicked w (Demo.idle, Demo.resident)))
  = [StepSave; StepDetach; StepDetach; StepStash; StepPull]
  ∧ follows_claimed_order
      (sync_steps (trace_of (SyncClicked w (Demo.idle, Demo.resident)))) = false.
Proof. by vm_compute. Qed.

(** C3, amended.  A sync started from an idle menu whose assets are saved
    and whose stash prompt is not declined runs its steps in this order: save
    the dirty assets once, then reset the loaders of each changed resident
    package, then make the stash if the working tree has modifications, then
    execute the pull.  On completion of a sync the stash is popped first if
    the stash flag is set, then the pending set is reloaded and unloaded, then
    the result notification is shown. *)
Theorem C3_sync_steps_in_order (w : World) (s : St) :
  IsValid (OperationInProgressNotification (fst s)) = false →
  saved w = true →
  stash_needed w = false ∨ DialogChoiceOk w = true →
  sync_steps (trace_of (SyncClicked w s))
  = [StepSave]
    ++ replicate (List.length (omap (Host.FindPackage (snd s)) (sync_names w))) StepDetach
    ++ (if stash_needed w then [StepStash] else [])
    ++ [StepPull]
  ∧ ∀ (InResult : CommandResult) (s' : St),
      completion_steps (trace_of (OnSourceControlOperationComplete w OpSync InResult s'))
      = (if bStashMadeBeforeSync (fst s') then [StepUnstash] else [])
        ++ [StepReconcile; StepReconcile; StepNotify].
Proof.
  destruct s as [m h]. cbn [fst snd]. intros Hidle Hsaved Hstash. split.
  - unfold SyncClicked, bind, getMenu. cbn [fst snd]. rewrite Hidle. cbn [negb].
    rewrite SaveDirtyPackages_eq, Hsaved. unfold emit.
    rewrite PackagesToUnlink_split, PackagesToUnlink_value. fold (sync_names w).
    rewrite UnlinkPackages_eq.
    unfold set_PackagesToReload, bind, getMenu, putMenu. cbn [fst snd].
    rewrite StashAwayAnyModifications_eq.
    pose proof (sync_steps_PackagesToUnlink w (m, h)) as Hres.
    pose proof (sync_steps_Unlink (sync_names w) h) as Hdet.
    unfold sync_steps, trace_of in *.
    destruct (stash_needed w) eqn:Hneed.
    + destruct Hstash as [?|Hok]; [done|]. rewrite Hok.
      unfold DisplayInProgressNotification, DisplayFailureNotification, bind, getMenu, emit.
      destruct (is_Succeeded (ExecuteResult w)).
      * cbn [fst snd with_stash_flag OperationInProgressNotification].
        rewrite Hidle. cbn [negb].
        unfold set_OperationInProgressNotification, bind, getMenu, putMenu.
        cbn [fst snd]. rewrite !omap_app, Hres, Hdet.
        by destruct (StashSaveOk w).
      * rewrite ReloadPackages_member_eq. cbn [fst snd].
        rewrite !omap_app, Hres, Hdet.
        by destruct (StashSaveOk w).
    + unfold DisplayInProgressNotification, DisplayFailureNotification, bind, getMenu, emit.
      destruct (is_Succeeded (ExecuteResult w)).
      * cbn [fst snd OperationInProgressNotification].
        rewrite Hidle. cbn [negb].
        unfold set_OperationInProgressNotification, bind, getMenu, putMenu.
        cbn [fst snd]. by rewrite !omap_app, Hres, Hdet.
      * rewrite ReloadPackages_member_eq. cbn [fst snd].
        by rewrite !omap_app, Hres, Hdet.
  - intros res [m' h'].
    unfold OnSourceControlOperationComplete, RemoveInProgressNotification,
      ReApplyStashedModifications, bind, getMenu. cbn [fst snd is_Sync_or_Revert].
    destruct m' as [[n|] ps []]; destruct (StashPopOk w), res; reflexivity.
Qed.

Lemma C3_sync_steps_in_order_witness :
  sync_steps
    (trace_of (SyncClicked
                 (Demo.world [] ["Content/A.uasset"] [" M Content/B.uasset"]
                             ["/Proj/Content/A.uasset"; "/Proj/Content/B.uasset"]
                             (true, [" M Content/B.uasset"])
                             true true true true Succeeded)
                 (Demo.idle, Demo.resident)))
  = [StepSave; StepDetach; StepDetach; StepStash; StepPull].
Proof.
  refine (proj1 (C3_sync_steps_in_order
                   (Demo.world [] ["Content/A.uasset"] [" M Content/B.uasset"]
                               ["/Proj/Content/A.uasset"; "/Proj/Content/B.uasset"]
                               (true, [" M Content/B.uasset"])
                               true true true true Succeeded)
                   (Demo.idle, Demo.resident) _ _ _)).
  - reflexivity.
  - reflexivity.
  - right. reflexivity.
Defined.

(** ** The pending reload set *)

(** C9 fails: after a sync of one changed resident package whose file is
    still on disk, the completion callback has reloaded the package and the
    pending reload set still holds its handle. *)
Lemma C9_pending_set_not_cleared_after_reconciliation :
  let w := Demo.world [] ["Content/A.uasset"] [] ["/Proj/Content/A.uasset"]
                      (true, []) true true true true Succeeded in
  let s1 := state_of (SyncClicked w (Demo.idle, Demo.resident)) in
  let r2 := OnSourceControlOperationComplete w OpSync Succeeded s1 in
  PackagesToReload (fst s1) = [Demo.A]
  ∧ List.filter is_reconcile (trace_of r2)
    = [EvReloadPackages [Demo.A]; EvUnloadPackages []]
  ∧ PackagesToReload (fst (state_of r2)) = [Demo.A]
  ∧ OperationInProgressNotification (fst (state_of r2)) = None.
Proof. by vm_compute. Qed.

(** C9, amended.  The pending reload set is assigned at detachment,
    whatever it held before: a revert or a sync that is dispatched leaves in
    it the handles of the resident packages among the names it resolved, in
    discovery order.  The completion callback of a sync or revert passes it
    exactly once to the reload and the unload, and leaves in it exactly the
    handles whose backing file exists, the reloaded ones; it is not emptied. *)
Theorem C9_pending_set_assigned_then_filtered (w : World) (s : St) :
  (IsValid (OperationInProgressNotification (fst s)) = false →
   DialogChoiceOk w = true → is_Succeeded (ExecuteResult w) = true →
   PackagesToReload (fst (state_of (RevertClicked w s)))
   = omap (Host.FindPackage (snd s))
          (omap (converted w) (FindPackagesInDirectory w)))
  ∧ (IsValid (OperationInProgressNotification (fst s)) = false →
     saved w = true → stash_needed w = false ∨ DialogChoiceOk w = true →
     is_Succeeded (ExecuteResult w) = true →
     PackagesToReload (fst (state_of (SyncClicked w s)))
     = omap (Host.FindPackage (snd s)) (sync_names w))
  ∧ (∀ (InOperation : OperationName) (InResult : CommandResult),
       is_Sync_or_Revert InOperation = true →
       let r := OnSourceControlOperationComplete w InOperation InResult s in
       PackagesToReload (fst (state_of r))
       = List.filter (backing_file_exists w) (PackagesToReload (fst s))
       ∧ List.filter is_reconcile (trace_of r)
         = [EvReloadPackages (List.filter (backing_file_exists w) (PackagesToReload (fst s)));
            EvUnloadPackages
              (List.filter (λ p, negb (backing_file_exists w p)) (PackagesToReload (fst s)))]).
Proof.
  destruct s as [m h]. cbn [fst snd]. split; [|split].
  - intros Hidle Hok Hexec.
    unfold RevertClicked, bind, getMenu. cbn [fst snd]. rewrite Hidle. cbn [negb].
    unfold emit. rewrite Hok, ListAllPackages_split, UnlinkPackages_eq, Hexec.
    unfold set_PackagesToReload, DisplayInProgressNotification, bind, getMenu, putMenu.
    cbn [fst snd OperationInProgressNotification]. rewrite Hidle. cbn [negb].
    reflexivity.
  - intros Hidle Hsaved Hstash Hexec.
    unfold SyncClicked, bind, getMenu. cbn [fst snd]. rewrite Hidle. cbn [negb].
    rewrite SaveDirtyPackages_eq, Hsaved. unfold emit.
    rewrite PackagesToUnlink_split, PackagesToUnlink_value. fold (sync_names w).
    rewrite UnlinkPackages_eq.
    unfold set_PackagesToReload, bind, getMenu, putMenu. cbn [fst snd].
    rewrite StashAwayAnyModifications_eq, Hexec.
    unfold DisplayInProgressNotification, bind, getMenu.
    destruct (stash_needed w).
    + destruct Hstash as [?|Hok]; [done|]. rewrite Hok.
      cbn [fst snd with_stash_flag OperationInProgressNotification].
      rewrite Hidle. reflexivity.
    + cbn [fst snd OperationInProgressNotification]. rewrite Hidle. reflexivity.
  - intros op res Hop. cbn zeta.
    unfold OnSourceControlOperationComplete, RemoveInProgressNotification,
      ReApplyStashedModifications, bind, getMenu. cbn [fst snd]. rewrite Hop.
    destruct m as [[n|] ps []]; destruct (StashPopOk w), res;
      cbn -[ReloadPackages_member List.filter];
      rewrite ReloadPackages_member_eq; split; reflexivity.
Qed.

Lemma C9_pending_set_assigned_then_filtered_witness :
  PackagesToReload
    (fst (state_of (SyncClicked
                      (Demo.world [] ["Content/A.uasset"; "Content/Gone.uasset"] []
                                  ["/Proj/Content/A.uasset"]
                                  (true, []) true true true true Succeeded)
                      (Demo.idle_with_leftover, Demo.resident))))
  = [Demo.A].
Proof.
  refine (proj1 (proj2 (C9_pending_set_assigned_then_filtered
                   (Demo.world [] ["Content/A.uasset"; "Content/Gone.uasset"] []
                               ["/Proj/Content/A.uasset"]
                               (true, []) true true true true Succeeded)
                   (Demo.idle_with_leftover, Demo.resident))) _ _ _ _).
  - reflexivity.
  - reflexivity.
  - left. reflexivity.
  - reflexivity.
Defined.

(** ** Where the code departs from the protocol *)

Lemma no_reconcile_in_resolution w s :
  List.filter is_reconcile (trace_of (PackagesToUnlink w s)) = [].
Proof.
  unfold PackagesToUnlink, trace_of.
  assert (∀ files, List.filter is_reconcile (snd (PackagesToUnlink_loop w files)) = [])
    as H.
  { induction files as [|f l IH]; [done|]. cbn.
    destruct (PackagesToUnlink_loop w l) as [names t]. cbn in IH.
    by destruct (TryConvertFilenameToLongPackageName w _). }
  specialize (H (ChangedFiles w)).
  by destruct (PackagesToUnlink_loop w (ChangedFiles w)).
Qed.

Lemma no_reconcile_in_scan w paths :
  List.filter is_reconcile (omap (failure w) paths) = [].
Proof.
  induction paths as [|f l IH]; [done|]. cbn.
  unfold failure at 1. by destruct (TryConvertFilenameToLongPackageName w f).
Qed.

Lemma no_reconcile_in_Unlink names h :
  List.filter is_reconcile (loop_trace (Unlink names h)) = [].
Proof.
  assert (∀ t, (∀ e, e ∈ t → is_reconcile e = false) → List.filter is_reconcile t = [])
    as Hnone.
  { induction t as [|e t IH]; [done|]. intros H. cbn.
    rewrite (H e) by apply list_elem_of_here. apply IH.
    intros e' He'. apply H. by apply list_elem_of_further. }
  apply Hnone. intros e He. unfold Unlink in He.
  destruct (0 <? _)%nat; [|by apply elem_of_nil in He].
  pose proof (loop_events names h e) as Hev.
  destruct (UnlinkPackages_loop names h) as [[ps h'] t].
  unfold loop_trace in *. cbn [snd] in *.
  apply elem_of_app in He as [He|He].
  - by destruct (Hev He) as [->|(p & [->| ->] & _)].
  - by apply list_elem_of_singleton in He as ->.
Qed.

(** The completion callback never writes the stash flag. *)
Lemma completion_keeps_stash_flag w op res s :
  bStashMadeBeforeSync (fst (state_of (OnSourceControlOperationComplete w op res s)))
  = bStashMadeBeforeSync (fst s).
Proof.
  unfold OnSourceControlOperationComplete, ReApplyStashedModifications, bind.
  destruct s as [[[n|] ps []] h]; destruct op, (StashPopOk w), res; reflexivity.
Qed.

(** The abort paths that do reconcile: when [Execute] does not succeed, the
    click handler of a revert or of a sync reloads and unloads the packages
    it has just detached before it returns. *)
Lemma dispatch_failure_reconciles_at_once w s :
  IsValid (OperationInProgressNotification (fst s)) = false →
  is_Succeeded (ExecuteResult w) = false →
  (DialogChoiceOk w = true →
   let detached := omap (Host.FindPackage (snd s))
                        (omap (converted w) (FindPackagesInDirectory w)) in
   List.filter is_reconcile (trace_of (RevertClicked w s))
   = [EvReloadPackages (List.filter (backing_file_exists w) detached);
      EvUnloadPackages (List.filter (RemovePredicate w) detached)])
  ∧ (saved w = true → stash_needed w = false ∨ DialogChoiceOk w = true →
     let detached := omap (Host.FindPackage (snd s)) (sync_names w) in
     List.filter is_reconcile (trace_of (SyncClicked w s))
     = [EvReloadPackages (List.filter (backing_file_exists w) detached);
        EvUnloadPackages (List.filter (RemovePredicate w) detached)]).
Proof.
  destruct s as [m h]. cbn [fst snd]. intros Hidle Hexec. split.
  - intros Hok. cbn zeta.
    unfold RevertClicked, bind, getMenu. cbn [fst snd]. rewrite Hidle. cbn [negb].
    unfold emit. rewrite Hok, ListAllPackages_split, UnlinkPackages_eq, Hexec.
    unfold set_PackagesToReload, DisplayFailureNotification, bind, getMenu, putMenu, emit.
    cbn [fst snd]. rewrite ReloadPackages_member_eq. unfold trace_of. cbn [fst snd].
    pose proof (no_reconcile_in_Unlink
                  (omap (converted w) (FindPackagesInDirectory w)) h) as Hdet.
    rewrite !List.filter_app, Hdet, no_reconcile_in_scan. reflexivity.
  - intros Hsaved Hstash. cbn zeta.
    unfold SyncClicked, bind, getMenu. cbn [fst snd]. rewrite Hidle. cbn [negb].
    rewrite SaveDirtyPackages_eq, Hsaved. unfold emit.
    rewrite PackagesToUnlink_split, PackagesToUnlink_value. fold (sync_names w).
    rewrite UnlinkPackages_eq.
    unfold set_PackagesToReload, bind, getMenu, putMenu. cbn [fst snd].
    rewrite StashAwayAnyModifications_eq, Hexec.
    pose proof (no_reconcile_in_resolution w (m, h)) as Hres.
    pose proof (no_reconcile_in_Unlink (sync_names w) h) as Hdet.
    unfold DisplayFailureNotification, bind, emit, trace_of in *.
    destruct (stash_needed w).
    + destruct Hstash as [?|Hok]; [done|]. rewrite Hok.
      rewrite ReloadPackages_member_eq. cbn [fst snd].
      rewrite !List.filter_app, Hres, Hdet. by destruct (StashSaveOk w).
    + rewrite ReloadPackages_member_eq. cbn [fst snd].
      by rewrite !List.filter_app, Hres, Hdet.
Qed.

(** The abort path that does not: whenever the stash prompt is declined,
    nothing is reloaded or unloaded and no operation is executed, while the
    detached handles sit in the pending reload set. *)
Lemma declined_stash_skips_reconciliation w s :
  IsValid (OperationInProgressNotification (fst s)) = false →
  saved w = true → stash_needed w = true → DialogChoiceOk w = false →
  List.filter is_reconcile (trace_of (SyncClicked w s)) = []
  ∧ PackagesToReload (fst (state_of (SyncClicked w s)))
    = omap (Host.FindPackage (snd s)) (sync_names w)
  ∧ OperationInProgressNotification (fst (state_of (SyncClicked w s))) = None.
Proof.
  destruct s as [m h]. cbn [fst snd]. intros Hidle Hsaved Hneed Hno.
  unfold SyncClicked, bind, getMenu. cbn [fst snd]. rewrite Hidle. cbn [negb].
  rewrite SaveDirtyPackages_eq, Hsaved. unfold emit.
  rewrite PackagesToUnlink_split, PackagesToUnlink_value. fold (sync_names w).
  rewrite UnlinkPackages_eq.
  unfold set_PackagesToReload, bind, getMenu, putMenu. cbn [fst snd].
  rewrite StashAwayAnyModifications_eq, Hneed, Hno.
  pose proof (no_reconcile_in_resolution w (m, h)) as Hres.
  pose proof (no_reconcile_in_Unlink (sync_names w) h) as Hdet.
  unfold Warn, bind, emit, trace_of, state_of in *.
  cbn [fst snd PackagesToReload OperationInProgressNotification].
  split; [|split; [done|]].
  - by rewrite !List.filter_app, Hres, Hdet.
  - by destruct (OperationInProgressNotification m).
Qed.

(** C1.  A sync in which the user declines the stash prompt: the loaders of
    the two changed resident packages have already been reset, the handler
    returns after its warning without reloading or unloading anything, no
    operation was executed (so no completion callback will follow), and the
    two packages stay without loader in the pending reload set. *)
Theorem C1_declined_stash_leaves_packages_detached :
  let w := Demo.world [] ["Content/A.uasset"] [" M Content/B.uasset"]
                      ["/Proj/Content/A.uasset"; "/Proj/Content/B.uasset"]
                      (true, [" M Content/B.uasset"])
                      true false true true Succeeded in
  let r := SyncClicked w (Demo.idle, Demo.resident) in
  trace_of r
  = [EvSaveDirtyPackages; EvGetBranchName;
     EvRunCommand "diff" ["--stat"; "--name-only"; "..origin/main"];
     EvRunCommand "status" ParametersStatus;
     EvLog VWarning (LogPathAndName "/Proj/Content/A.uasset" "/Game/A");
     EvLog VWarning (LogPathAndName "/Proj/Content/B.uasset" "/Game/B");
     EvFlushAsyncLoading; EvFullyLoad Demo.A; EvResetLoaders Demo.A;
     EvResetLoaders Demo.B;
     EvLog VLog (LogResetLoaders 2);
     EvRunCommand "status" ParametersStatus;
     EvMessageDialog Stash_Ask;
     EvMessageLogWarning Sync_Unstashed; EvMessageLogNotify]
  ∧ List.filter is_reconcile (trace_of r) = []
  ∧ fst (state_of r) = mkMenu None [Demo.A; Demo.B] false
  ∧ snd (state_of r) !! "/Game/A" = Some (mkEntry false true false)
  ∧ snd (state_of r) !! "/Game/B" = Some (mkEntry false true false).
Proof. by vm_compute. Qed.

(** C2.  A sync that stashes, its completion, then a revert and its
    completion: the flag is still set when the completion callback of the
    sync has finished; the revert runs no stash command of its own, and its
    completion callback pops a stash all the same.  A later sync on a clean
    working tree likewise ends with the flag set although it has run no
    stash command. *)
Theorem C2_stash_flag_is_never_reset :
  let files := ["/Proj/Content/A.uasset"; "/Proj/Content/B.uasset"] in
  let w1 := Demo.world [] ["Content/A.uasset"] [" M Content/B.uasset"] files
                       (true, [" M Content/B.uasset"])
                       true true true true Succeeded in
  let w2 := Demo.world files [] [] files (true, []) true true true true Succeeded in
  let s1 := state_of (SyncClicked w1 (Demo.idle, Demo.resident)) in
  let r2 := OnSourceControlOperationComplete w1 OpSync Succeeded s1 in
  let r3 := RevertClicked w2 (state_of r2) in
  let r4 := OnSourceControlOperationComplete w2 OpRevert Succeeded (state_of r3) in
  let r5 := SyncClicked w2 (state_of r2) in
  bStashMadeBeforeSync (fst s1) = true
  ∧ List.filter is_stash_command (trace_of r2) = [EvRunCommand "stash" ParametersStashPop]
  ∧ bStashMadeBeforeSync (fst (state_of r2)) = true
  ∧ OperationInProgressNotification (fst (state_of r2)) = None
  ∧ List.filter is_stash_command (trace_of r3) = []
  ∧ List.filter is_stash_command (trace_of r4) = [EvRunCommand "stash" ParametersStashPop]
  ∧ List.filter is_stash_command (trace_of r5) = []
  ∧ bStashMadeBeforeSync (fst (state_of r5)) = true.
Proof. by vm_compute. Qed.

(** * Further properties of the handlers *)

(** ** The handlers as equations *)

Lemma PackagesToUnlink_eq w s :
  PackagesToUnlink w s = (sync_names w, s, resolution_trace w).
Proof.
  rewrite PackagesToUnlink_split, PackagesToUnlink_value.
  unfold PackagesToUnlink, trace_of, resolution_trace, sync_names.
  by destruct (PackagesToUnlink_loop w (ChangedFiles w)).
Qed.

Lemma StashAwayAnyModifications_trace w m h :
  StashAwayAnyModifications w (m, h)
  = (negb (stash_needed w && negb (DialogChoiceOk w)),
     (if stash_needed w && DialogChoiceOk w
      then with_stash_flag (StashSaveOk w) m else m, h),
     stash_trace w).
Proof.
  rewrite StashAwayAnyModifications_eq. unfold stash_trace.
  by destruct (stash_needed w), (DialogChoiceOk w).
Qed.

Lemma ReloadPackages_member_trace w m h :
  ReloadPackages_member w (m, h)
  = (tt, (with_pending (List.filter (backing_file_exists w) (PackagesToReload m)) m,
          Host.UnloadPackages (List.filter (RemovePredicate w) (PackagesToReload m))
            (Host.ReloadPackages
               (List.filter (backing_file_exists w) (PackagesToReload m)) h)),
     reconcile_trace w (PackagesToReload m)).
Proof. by rewrite ReloadPackages_member_eq. Qed.

Lemma SyncClicked_eq w m h :
  IsValid (OperationInProgressNotification m) = false → saved w = true →
  SyncClicked w (m, h) =
    let detached := omap (Host.FindPackage h) (sync_names w) in
    let h1 := loop_host (Unlink (sync_names w) h) in
    let m1 := if stash_needed w && DialogChoiceOk w
              then with_stash_flag (StashSaveOk w) (with_pending detached m)
              else with_pending detached m in
    let t1 := [EvSaveDirtyPackages; EvGetBranchName;
               EvRunCommand "diff" ["--stat"; "--name-only"; "..origin/" +:+ BranchName w];
               EvRunCommand "status" ParametersStatus]
              ++ resolution_trace w ++ loop_trace (Unlink (sync_names w) h)
              ++ stash_trace w in
    if stash_needed w && negb (DialogChoiceOk w) then
      (tt, (m1, h1), t1 ++ [EvMessageLogWarning Sync_Unstashed; EvMessageLogNotify])
    else if is_Succeeded (ExecuteResult w) then
      (tt, (with_notification (AddNotificationResult w) m1, h1),
       t1 ++ [EvExecute OpSync; EvAddNotification (NotifyInProgress OpSync)])
    else
      (tt, (with_pending (List.filter (backing_file_exists w) detached) m1,
            Host.UnloadPackages (List.filter (RemovePredicate w) detached)
              (Host.ReloadPackages (List.filter (backing_file_exists w) detached) h1)),
       t1 ++ [EvExecute OpSync; EvAddNotification (NotifyFailure OpSync);
              EvLog VError (LogFailure OpSync)]
          ++ reconcile_trace w detached).
Proof.
  intros Hidle Hsaved. cbn zeta.
  unfold SyncClicked, bind, getMenu. cbn [fst snd]. rewrite Hidle. cbn [negb].
  rewrite SaveDirtyPackages_eq, Hsaved. unfold emit.
  rewrite PackagesToUnlink_eq, UnlinkPackages_eq.
  unfold set_PackagesToReload, bind, getMenu, putMenu. cbn [fst snd].
  rewrite StashAwayAnyModifications_trace.
  fold (with_pending (omap (Host.FindPackage h) (sync_names w)) m).
  destruct (stash_needed w && negb (DialogChoiceOk w)) eqn:Hdecl; cbn [negb].
  - unfold Warn, bind, emit. cbn [fst snd app]. by rewrite <-!app_assoc.
  - destruct (is_Succeeded (ExecuteResult w)).
    + unfold DisplayInProgressNotification, bind, getMenu, emit.
      destruct (stash_needed w && DialogChoiceOk w);
        cbn [fst snd with_stash_flag with_pending OperationInProgressNotification];
        rewrite Hidle; cbn [negb];
        unfold set_OperationInProgressNotification, bind, getMenu, putMenu;
        cbn [fst snd app]; by rewrite <-!app_assoc.
    + unfold DisplayFailureNotification, bind, emit.
      rewrite ReloadPackages_member_trace.
      destruct (stash_needed w && DialogChoiceOk w);
        cbn [fst snd app with_stash_flag with_pending PackagesToReload];
        by rewrite <-!app_assoc.
Qed.

Lemma RevertClicked_eq w m h :
  IsValid (OperationInProgressNotification m) = false →
  RevertClicked w (m, h) =
    let names := omap (converted w) (FindPackagesInDirectory w) in
    let detached := omap (Host.FindPackage h) names in
    let h1 := loop_host (Unlink names h) in
    let m1 := with_pending detached m in
    let t1 := [EvMessageDialog Revert_Ask]
              ++ omap (failure w) (FindPackagesInDirectory w)
              ++ loop_trace (Unlink names h) in
    if DialogChoiceOk w then
      if is_Succeeded (ExecuteResult w) then
        (tt, (with_notification (AddNotificationResult w) m1, h1),
         t1 ++ [EvExecute OpRevert; EvAddNotification (NotifyInProgress OpRevert)])
      else
        (tt, (with_pending (List.filter (backing_file_exists w) detached) m1,
              Host.UnloadPackages (List.filter (RemovePredicate w) detached)
                (Host.ReloadPackages (List.filter (backing_file_exists w) detached) h1)),
         t1 ++ [EvExecute OpRevert; EvAddNotification (NotifyFailure OpRevert);
                EvLog VError (LogFailure OpRevert)]
            ++ reconcile_trace w detached)
    else (tt, (m, h), [EvMessageDialog Revert_Ask]).
Proof.
  intros Hidle. cbn zeta.
  unfold RevertClicked, bind, getMenu. cbn [fst snd]. rewrite Hidle. cbn [negb].
  unfold emit. destruct (DialogChoiceOk w); [|done].
  rewrite ListAllPackages_split, UnlinkPackages_eq.
  unfold set_PackagesToReload, bind, getMenu, putMenu. cbn [fst snd].
  fold (with_pending
          (omap (Host.FindPackage h) (omap (converted w) (FindPackagesInDirectory w))) m).
  destruct (is_Succeeded (ExecuteResult w)).
  - unfold DisplayInProgressNotification, bind, getMenu, emit.
    cbn [fst snd with_pending OperationInProgressNotification].
    rewrite Hidle. cbn [negb].
    unfold set_OperationInProgressNotification, bind, getMenu, putMenu.
    cbn [fst snd app]. by rewrite <-!app_assoc.
  - unfold DisplayFailureNotification, bind, emit.
    rewrite ReloadPackages_member_trace.
    cbn [fst snd app with_pending PackagesToReload]. by rewrite <-!app_assoc.
Qed.

Lemma Push_Refresh_eq r w m h :
  r = GitPush ∨ r = GitRefresh →
  IsValid (OperationInProgressNotification m) = false →
  Clicked r w (m, h) =
    if is_Succeeded (ExecuteResult w) then
      (tt, (with_notification (AddNotificationResult w) m, h),
       [EvExecute (OperationOf r); EvAddNotification (NotifyInProgress (OperationOf r))])
    else
      (tt, (m, h),
       [EvExecute (OperationOf r); EvAddNotification (NotifyFailure (OperationOf r));
        EvLog VError (LogFailure (OperationOf r))]).
Proof.
  intros [-> | ->] Hidle; cbn [Clicked OperationOf];
    unfold PushClicked, RefreshClicked, bind, getMenu; cbn [fst snd];
    rewrite Hidle; cbn [negb]; unfold emit;
    (destruct (is_Succeeded (ExecuteResult w));
     [ unfold DisplayInProgressNotification, bind, getMenu, emit; cbn [fst snd];
       rewrite Hidle; reflexivity
     | reflexivity ]).
Qed.

Lemma OnSourceControlOperationComplete_eq w op res m h :
  OnSourceControlOperationComplete w op res (m, h) =
    let expire := if IsValid (OperationInProgressNotification m)
                  then [EvExpireAndFadeout] else [] in
    if is_Sync_or_Revert op then
      (tt, (with_pending (List.filter (backing_file_exists w) (PackagesToReload m))
                         (with_notification None m),
            Host.UnloadPackages (List.filter (RemovePredicate w) (PackagesToReload m))
              (Host.ReloadPackages
                 (List.filter (backing_file_exists w) (PackagesToReload m)) h)),
       expire ++ unstash_trace w m ++ reconcile_trace w (PackagesToReload m)
         ++ result_trace op res)
    else (tt, (with_notification None m, h), expire ++ result_trace op res).
Proof.
  unfold OnSourceControlOperationComplete, RemoveInProgressNotification,
    ReApplyStashedModifications, unstash_trace, result_trace, bind, getMenu.
  destruct m as [[n|] ps []]; destruct (StashPopOk w), res, op;
    cbn -[ReloadPackages_member List.filter reconcile_trace];
    rewrite ?ReloadPackages_member_trace; reflexivity.
Qed.

(** A request made while the notification is valid (all four handlers). *)
Lemma Clicked_busy r w s :
  IsValid (OperationInProgressNotification (fst s)) = true →
  Clicked r w s = (tt, s, [EvMessageLogWarning InProgress; EvMessageLogNotify]).
Proof.
  destruct s as [m h]. cbn [fst]. intros Hbusy.
  destruct r; cbn [Clicked];
    unfold SyncClicked, PushClicked, RevertClicked, RefreshClicked, bind, getMenu;
    cbn [fst snd]; rewrite Hbusy; reflexivity.
Qed.

Lemma SyncClicked_unsaved w m h :
  IsValid (OperationInProgressNotification m) = false → saved w = false →
  SyncClicked w (m, h)
  = (tt, (m, h),
     [EvSaveDirtyPackages; EvMessageLogWarning Sync_Unsaved; EvMessageLogNotify]).
Proof.
  intros Hidle Hsaved.
  unfold SyncClicked, bind, getMenu. cbn [fst snd]. rewrite Hidle. cbn [negb].
  by rewrite SaveDirtyPackages_eq, Hsaved.
Qed.

(** ** What the pieces of a trace are made of *)

Lemma filter_none {A} (P : A → bool) (t : list A) :
  (∀ e, e ∈ t → P e = false) → List.filter P t = [].
Proof.
  induction t as [|e t IH]; [done|]. intros H. cbn.
  rewrite (H e) by apply list_elem_of_here. apply IH.
  intros e' He'. apply H. by apply list_elem_of_further.
Qed.

Lemma resolution_trace_events w e :
  e ∈ resolution_trace w → ∃ path name, e = EvLog VWarning (LogPathAndName path name).
Proof.
  unfold resolution_trace. induction (ChangedFiles w) as [|f l IH]; cbn.
  - by intros ?%elem_of_nil.
  - destruct (PackagesToUnlink_loop w l) as [names t]. cbn [snd] in IH.
    destruct (TryConvertFilenameToLongPackageName w _); cbn [snd]; [|done].
    intros [->|He]%elem_of_cons; eauto.
Qed.

Lemma scan_trace_events w (paths : list string) e :
  e ∈ omap (failure w) paths → ∃ reason, e = EvMessageLogError reason.
Proof.
  intros (path & _ & Hf)%list_elem_of_omap. unfold failure in Hf.
  destruct (TryConvertFilenameToLongPackageName w path); naive_solver.
Qed.

Lemma Unlink_trace_events names h e :
  e ∈ loop_trace (Unlink names h) →
  e = EvFlushAsyncLoading
  ∨ (∃ p, (e = EvFullyLoad p ∨ e = EvResetLoaders p)
          ∧ GetName p ∈ names ∧ Host.FindPackage h (GetName p) = Some p)
  ∨ ∃ n, e = EvLog VLog (LogResetLoaders n).
Proof.
  unfold Unlink. destruct (0 <? _)%nat; [|by intros ?%elem_of_nil].
  pose proof (loop_events names h e) as Hev.
  destruct (UnlinkPackages_loop names h) as [[ps h'] t].
  unfold loop_trace in *. cbn [snd] in *.
  intros [He|He]%elem_of_app.
  - destruct (Hev He) as [->|H]; [by left|right; by left].
  - apply list_elem_of_singleton in He as ->. right. right. eauto.
Qed.

(** Every resident name of the input has its loaders reset. *)
Lemma loop_resets_every_resident names h n p :
  n ∈ names → Host.FindPackage h n = Some p →
  EvResetLoaders p ∈ loop_trace (UnlinkPackages_loop names h).
Proof.
  revert h. induction names as [|m rest IH]; intros h Hin Hf;
    [by apply elem_of_nil in Hin|].
  destruct (decide (m = n)) as [->|Hne].
  - rewrite (loop_resident _ _ _ _ Hf). cbn [loop_trace snd].
    apply elem_of_app. right. apply list_elem_of_here.
  - apply elem_of_cons in Hin as [->|Hin]; [done|].
    destruct (Host.FindPackage h m) as [q|] eqn:Hfm.
    + rewrite (loop_resident _ _ _ _ Hfm). cbn [loop_trace snd].
      apply elem_of_app. right. apply list_elem_of_further. apply IH; [done|].
      rewrite FindPackage_ResetLoaders.
      destruct (Host.fully_loaded h q); [done|by rewrite FindPackage_FullyLoad].
    + rewrite (loop_absent _ _ _ Hfm). by apply IH.
Qed.

Lemma Unlink_resets p names h :
  EvResetLoaders p ∈ loop_trace (Unlink names h)
  ↔ GetName p ∈ names ∧ Host.FindPackage h (GetName p) = Some p.
Proof.
  split.
  - intros He. apply Unlink_trace_events in He as [?|[(q & [?|Hq] & ? & ?)|[? ?]]];
      try done. by injection Hq as ->.
  - intros [Hin Hf]. unfold Unlink.
    destruct names as [|n0 rest]; [by apply elem_of_nil in Hin|].
    cbn [List.length Nat.ltb Nat.leb].
    pose proof (loop_resets_every_resident (n0 :: rest) h _ _ Hin Hf) as H.
    destruct (UnlinkPackages_loop (n0 :: rest) h) as [[ps h'] t].
    unfold loop_trace in *. cbn [snd] in *. apply elem_of_app. by left.
Qed.

Lemma Unlink_run names h :
  Host.run h (loop_trace (Unlink names h)) = Some (loop_host (Unlink names h)).
Proof.
  unfold Unlink. destruct (0 <? _)%nat; [|done].
  pose proof (loop_run names h) as Hr.
  destruct (UnlinkPackages_loop names h) as [[ps h'] t].
  unfold loop_trace, loop_host in *. cbn [fst snd] in *.
  by rewrite run_app, Hr.
Qed.

Ltac trace_cases He :=
  repeat first
    [ apply elem_of_nil in He; destruct He
    | apply elem_of_app in He as [He|He]
    | apply elem_of_cons in He as [->|He]
    | apply resolution_trace_events in He as (? & ? & ->)
    | apply scan_trace_events in He as (? & ->)
    | apply Unlink_trace_events in He as [->|[(? & [->| ->] & _)|(? & ->)]] ].

(** ** Requests that are abandoned *)

(** X1.  A sync requested while the menu is idle is abandoned when the
    editor's save prompt reports failure or when dirty packages remain after
    it: the handler only prompts and warns that all assets must be saved; no
    git command is run, nothing is detached or executed, and the menu and the
    resident packages are unchanged. *)
Theorem sync_with_unsaved_assets_is_abandoned (w : World) (s : St) :
  IsValid (OperationInProgressNotification (fst s)) = false →
  SaveDirtyPackages_result w = false ∨ DirtyPackagesLeft w ≠ 0 →
  SyncClicked w s
  = (tt, s, [EvSaveDirtyPackages; EvMessageLogWarning Sync_Unsaved; EvMessageLogNotify]).
Proof.
  destruct s as [m h]. cbn [fst]. intros Hidle Hdirty.
  apply SyncClicked_unsaved; [done|]. unfold saved.
  destruct Hdirty as [->|Hleft]; [done|].
  apply andb_false_iff. right. by apply Nat.eqb_neq.
Qed.

Lemma sync_with_unsaved_assets_is_abandoned_witness :
  SyncClicked (Demo.world [] ["Content/A.uasset"] [] [] (true, [])
                          false true true true Succeeded)
              (Demo.idle, Demo.resident)
  = (tt, (Demo.idle, Demo.resident),
     [EvSaveDirtyPackages; EvMessageLogWarning Sync_Unsaved; EvMessageLogNotify]).
Proof.
  apply sync_with_unsaved_assets_is_abandoned; [reflexivity|left; reflexivity].
Defined.

(** X2.  A revert whose confirmation is declined does nothing but ask: no
    package is looked up or detached, no operation is executed, and the menu
    and the resident packages are unchanged. *)
Theorem declined_revert_changes_nothing (w : World) (s : St) :
  IsValid (OperationInProgressNotification (fst s)) = false →
  DialogChoiceOk w = false →
  RevertClicked w s = (tt, s, [EvMessageDialog Revert_Ask]).
Proof.
  destruct s as [m h]. cbn [fst]. intros Hidle Hno.
  rewrite RevertClicked_eq by done. cbn zeta. by rewrite Hno.
Qed.

Lemma declined_revert_changes_nothing_witness :
  RevertClicked (Demo.world ["/Proj/Content/A.uasset"] [] [] [] (true, [])
                            true false true true Succeeded)
                (Demo.idle, Demo.resident)
  = (tt, (Demo.idle, Demo.resident), [EvMessageDialog Revert_Ask]).
Proof. apply declined_revert_changes_nothing; reflexivity. Defined.

(** ** Push and Refresh *)

Lemma Clicked_busy_leaves_assets_alone r w s :
  IsValid (OperationInProgressNotification (fst s)) = true →
  leaves_assets_alone s (Clicked r w s).
Proof. intros Hbusy. rewrite Clicked_busy by done. by repeat split. Qed.

(** X3.  Push and Refresh, from the click to the completion callback, never
    run a git command synchronously, never call the asset host, never prompt,
    and leave the pending reload set, the stash flag and the resident packages
    as they were; this holds whether or not the request is accepted and
    whatever [Execute] and the operation return. *)
Theorem push_and_refresh_leave_assets_alone (w : World) (s : St) :
  leaves_assets_alone s (PushClicked w s)
  ∧ leaves_assets_alone s (RefreshClicked w s)
  ∧ ∀ InResult,
      leaves_assets_alone s (OnSourceControlOperationComplete w OpPush InResult s)
      ∧ leaves_assets_alone s
          (OnSourceControlOperationComplete w OpUpdateStatus InResult s).
Proof.
  assert (∀ r, r = GitPush ∨ r = GitRefresh → leaves_assets_alone s (Clicked r w s))
    as Hclick.
  { intros r Hr. destruct (IsValid (OperationInProgressNotification (fst s))) eqn:Hv.
    - by apply Clicked_busy_leaves_assets_alone.
    - destruct s as [m h]. rewrite (Push_Refresh_eq r w m h Hr Hv).
      by destruct (is_Succeeded (ExecuteResult w)), Hr as [-> | ->]. }
  split; [apply (Hclick GitPush); by left|].
  split; [apply (Hclick GitRefresh); by right|].
  intros res. destruct s as [m h]. rewrite !OnSourceControlOperationComplete_eq.
  cbn zeta. cbn [is_Sync_or_Revert]. unfold result_trace.
  by destruct (IsValid (OperationInProgressNotification m)), (is_Succeeded res).
Qed.

(** ** The progress notification as the busy flag *)

Ltac drop_piece t :=
  rewrite (filter_none _ t)
    by (let e := fresh "e" in let He := fresh "He" in
        intros e He; trace_cases He; reflexivity).

Lemma idle_request_is_not_rejected r w s :
  IsValid (OperationInProgressNotification (fst s)) = false →
  List.filter is_in_progress_warning (trace_of (Clicked r w s)) = [].
Proof.
  destruct s as [m h]. cbn [fst]. intros Hidle.
  destruct r; cbn [Clicked].
  - change PushClicked with (Clicked GitPush).
    rewrite Push_Refresh_eq by (done || by left).
    by destruct (is_Succeeded (ExecuteResult w)).
  - destruct (saved w) eqn:Hsaved; [|by rewrite SyncClicked_unsaved].
    rewrite SyncClicked_eq by done. cbn zeta.
    unfold stash_trace, reconcile_trace.
    destruct (stash_needed w), (DialogChoiceOk w), (StashSaveOk w),
      (is_Succeeded (ExecuteResult w));
      cbn [andb negb trace_of snd]; apply filter_none; intros e He;
      trace_cases He; reflexivity.
  - rewrite RevertClicked_eq by done. cbn zeta. unfold reconcile_trace.
    destruct (DialogChoiceOk w), (is_Succeeded (ExecuteResult w));
      cbn [trace_of snd]; apply filter_none; intros e He;
      trace_cases He; reflexivity.
  - change RefreshClicked with (Clicked GitRefresh).
    rewrite Push_Refresh_eq by (done || by right).
    by destruct (is_Succeeded (ExecuteResult w)).
Qed.

(** X4.  Whatever operation completes, with whatever result and in whatever
    state, the completion callback leaves the progress notification unset: it
    expires the notification exactly when one was set, and no request made
    afterwards is answered with "operation already in progress". *)
Theorem completion_makes_the_menu_idle
    (w : World) (InOperation : OperationName) (InResult : CommandResult) (s : St) :
  let r := OnSourceControlOperationComplete w InOperation InResult s in
  OperationInProgressNotification (fst (state_of r)) = None
  ∧ List.filter is_expire (trace_of r)
    = (if IsValid (OperationInProgressNotification (fst s))
       then [EvExpireAndFadeout] else [])
  ∧ ∀ (next : Request) (w' : World),
      List.filter is_in_progress_warning (trace_of (Clicked next w' (state_of r))) = [].
Proof.
  cbn zeta.
  assert (OperationInProgressNotification
            (fst (state_of (OnSourceControlOperationComplete w InOperation InResult s)))
          = None) as Hnone.
  { destruct s as [m h]. rewrite OnSourceControlOperationComplete_eq. cbn zeta.
    by destruct (is_Sync_or_Revert InOperation). }
  split; [done|]. split.
  - clear Hnone. destruct s as [m h].
    rewrite OnSourceControlOperationComplete_eq. cbn zeta. cbn [fst].
    unfold unstash_trace, reconcile_trace, result_trace.
    by destruct (is_Sync_or_Revert InOperation),
      (IsValid (OperationInProgressNotification m)), (bStashMadeBeforeSync m),
      (StashPopOk w), (is_Succeeded InResult).
  - intros next w'. apply idle_request_is_not_rejected. by rewrite Hnone.
Qed.

(** X5.  The completion callback shows exactly one notification, for the
    operation that completed: the success notification when the result is
    [Succeeded], the failure notification for every other result ([Failed]
    and [Cancelled] alike). *)
Theorem completion_reports_the_result_once
    (w : World) (InOperation : OperationName) (InResult : CommandResult) (s : St) :
  List.filter is_notification
    (trace_of (OnSourceControlOperationComplete w InOperation InResult s))
  = [EvAddNotification
       (match InResult with
        | Succeeded => NotifySuccess InOperation
        | Failed | Cancelled => NotifyFailure InOperation
        end)].
Proof.
  destruct s as [m h]. rewrite OnSourceControlOperationComplete_eq. cbn zeta.
  unfold unstash_trace, reconcile_trace, result_trace.
  by destruct (is_Sync_or_Revert InOperation),
    (IsValid (OperationInProgressNotification m)), (bStashMadeBeforeSync m),
    (StashPopOk w), InResult.
Qed.

Lemma dispatched_notification r w m h :
  IsValid (OperationInProgressNotification m) = false →
  reaches_Execute r w = true → is_Succeeded (ExecuteResult w) = true →
  OperationInProgressNotification (fst (state_of (Clicked r w (m, h))))
  = AddNotificationResult w.
Proof.
  intros Hidle Hreach Hexec. destruct r; cbn [Clicked reaches_Execute] in *.
  - change PushClicked with (Clicked GitPush).
    rewrite Push_Refresh_eq by (done || by left). by rewrite Hexec.
  - apply andb_true_iff in Hreach as [Hsaved Hstash].
    rewrite SyncClicked_eq by done. cbn zeta.
    apply negb_true_iff in Hstash. by rewrite Hstash, Hexec.
  - rewrite RevertClicked_eq by done. cbn zeta. by rewrite Hreach, Hexec.
  - change RefreshClicked with (Clicked GitRefresh).
    rewrite Push_Refresh_eq by (done || by right). by rewrite Hexec.
Qed.

(** X6.  When a request made on an idle menu reaches [Execute] and
    [Execute] succeeds, the progress notification member holds whatever the
    notification manager returned; if that is a valid notification, every
    further Push, Sync, Revert or Refresh request is rejected with the
    warning and changes nothing. *)
Theorem dispatched_request_blocks_the_next (r : Request) (w : World) (s : St) :
  IsValid (OperationInProgressNotification (fst s)) = false →
  reaches_Execute r w = true →
  is_Succeeded (ExecuteResult w) = true →
  let s1 := state_of (Clicked r w s) in
  OperationInProgressNotification (fst s1) = AddNotificationResult w
  ∧ (IsValid (AddNotificationResult w) = true →
     ∀ (next : Request) (w' : World),
       Clicked next w' s1
       = (tt, s1, [EvMessageLogWarning InProgress; EvMessageLogNotify])).
Proof.
  destruct s as [m h]. cbn [fst]. intros Hidle Hreach Hexec. cbn zeta.
  pose proof (dispatched_notification r w m h Hidle Hreach Hexec) as Hn.
  split; [done|]. intros Hvalid next w'. apply Clicked_busy. by rewrite Hn.
Qed.

Lemma dispatched_request_blocks_the_next_witness :
  Clicked GitPush
    (Demo.world [] [] [] [] (true, []) true true true true Succeeded)
    (state_of (Clicked GitSync
                 (Demo.world [] ["Content/A.uasset"] []
                             ["/Proj/Content/A.uasset"] (true, [])
                             true true true true Succeeded)
                 (Demo.idle, Demo.resident)))
  = (tt,
     state_of (Clicked GitSync
                 (Demo.world [] ["Content/A.uasset"] []
                             ["/Proj/Content/A.uasset"] (true, [])
                             true true true true Succeeded)
                 (Demo.idle, Demo.resident)),
     [EvMessageLogWarning InProgress; EvMessageLogNotify]).
Proof.
  refine (proj2 (dispatched_request_blocks_the_next GitSync
                   (Demo.world [] ["Content/A.uasset"] []
                               ["/Proj/Content/A.uasset"] (true, [])
                               true true true true Succeeded)
                   (Demo.idle, Demo.resident) _ _ _) _ GitPush _);
    reflexivity.
Defined.

(** X7.  When a request made on an idle menu reaches [Execute] and
    [Execute] does not succeed, the handler executes the operation once,
    shows the failure notification of that operation and no other
    notification, and leaves the progress notification unset, so the menu
    stays idle. *)
Theorem failed_dispatch_leaves_the_menu_idle (r : Request) (w : World) (s : St) :
  IsValid (OperationInProgressNotification (fst s)) = false →
  reaches_Execute r w = true →
  is_Succeeded (ExecuteResult w) = false →
  OperationInProgressNotification (fst (state_of (Clicked r w s))) = None
  ∧ List.filter is_execute (trace_of (Clicked r w s)) = [EvExecute (OperationOf r)]
  ∧ List.filter is_notification (trace_of (Clicked r w s))
    = [EvAddNotification (NotifyFailure (OperationOf r))].
Proof.
  destruct s as [m h]. cbn [fst]. intros Hidle Hreach Hexec.
  assert (OperationInProgressNotification m = None) as Hnone
    by by destruct (OperationInProgressNotification m).
  destruct r; cbn [Clicked reaches_Execute OperationOf] in *.
  - change PushClicked with (Clicked GitPush).
    rewrite Push_Refresh_eq by (done || by left). by rewrite Hexec.
  - apply andb_true_iff in Hreach as [Hsaved Hstash].
    rewrite SyncClicked_eq by done. cbn zeta.
    apply negb_true_iff in Hstash. rewrite Hstash, Hexec.
    unfold trace_of, state_of. cbn [fst snd].
    split; [by destruct (stash_needed w && DialogChoiceOk w)|].
    unfold stash_trace, reconcile_trace. rewrite !List.filter_app.
    split.
    + drop_piece (resolution_trace w). drop_piece (loop_trace (Unlink (sync_names w) h)).
      by destruct (stash_needed w), (DialogChoiceOk w), (StashSaveOk w).
    + drop_piece (resolution_trace w). drop_piece (loop_trace (Unlink (sync_names w) h)).
      by destruct (stash_needed w), (DialogChoiceOk w), (StashSaveOk w).
  - rewrite RevertClicked_eq by done. cbn zeta. rewrite Hreach, Hexec.
    unfold trace_of, state_of. cbn [fst snd]. split; [done|].
    unfold reconcile_trace. rewrite !List.filter_app.
    split.
    + drop_piece (omap (failure w) (FindPackagesInDirectory w)).
      by drop_piece (loop_trace (Unlink (omap (converted w) (FindPackagesInDirectory w)) h)).
    + drop_piece (omap (failure w) (FindPackagesInDirectory w)).
      by drop_piece (loop_trace (Unlink (omap (converted w) (FindPackagesInDirectory w)) h)).
  - change RefreshClicked with (Clicked GitRefresh).
    rewrite Push_Refresh_eq by (done || by right). by rewrite Hexec.
Qed.

Lemma failed_dispatch_leaves_the_menu_idle_witness :
  OperationInProgressNotification
    (fst (state_of (Clicked GitRevert
                      (Demo.world ["/Proj/Content/A.uasset"] [] []
                                  ["/Proj/Content/A.uasset"] (true, [])
                                  true true true true Failed)
                      (Demo.idle, Demo.resident))))
  = None.
Proof.
  refine (proj1 (failed_dispatch_leaves_the_menu_idle GitRevert
                   (Demo.world ["/Proj/Content/A.uasset"] [] []
                               ["/Proj/Content/A.uasset"] (true, [])
                               true true true true Failed)
                   (Demo.idle, Demo.resident) _ _ _));
    reflexivity.
Defined.

(** ** From detachment to reconciliation *)

Ltac reset_cases He :=
  repeat first
    [ apply elem_of_nil in He; destruct He
    | apply elem_of_app in He as [He|He]
    | apply elem_of_cons in He as [He|He]; [discriminate He|]
    | apply resolution_trace_events in He as (? & ? & He); discriminate He
    | apply scan_trace_events in He as (? & He); discriminate He ].

Lemma elem_of_detached p (names : list string) h :
  p ∈ omap (Host.FindPackage h) names
  ↔ GetName p ∈ names ∧ Host.FindPackage h (GetName p) = Some p.
Proof.
  rewrite list_elem_of_omap. split.
  - intros (n & Hin & Hf). by rewrite (FindPackage_name _ _ _ Hf).
  - intros [Hin Hf]. eauto.
Qed.

(** The loaders reset by a click that reaches [Execute] are those of the
    handles it stores as detached. *)
Lemma click_resets r w m h p :
  r = GitSync ∨ r = GitRevert →
  IsValid (OperationInProgressNotification m) = false →
  reaches_Execute r w = true →
  EvResetLoaders p ∈ trace_of (Clicked r w (m, h)) ↔ p ∈ detached r w h.
Proof.
  unfold detached. rewrite elem_of_detached, <-Unlink_resets.
  intros [-> | ->] Hidle Hreach; cbn [Clicked reaches_Execute names_to_unlink] in *.
  - apply andb_true_iff in Hreach as [Hsaved Hstash].
    rewrite SyncClicked_eq by done. cbn zeta.
    apply negb_true_iff in Hstash. rewrite Hstash.
    unfold stash_trace, reconcile_trace.
    destruct (stash_needed w), (DialogChoiceOk w), (StashSaveOk w),
      (is_Succeeded (ExecuteResult w)); try discriminate Hstash;
      unfold trace_of; cbn [snd]; (split; [intros He; by reset_cases He|]);
      intros He; rewrite !elem_of_app; eauto 10.
  - rewrite RevertClicked_eq by done. cbn zeta. rewrite Hreach.
    unfold reconcile_trace.
    destruct (is_Succeeded (ExecuteResult w));
      unfold trace_of; cbn [snd]; (split; [intros He; by reset_cases He|]);
      intros He; rewrite !elem_of_app; eauto 10.
Qed.

Lemma click_pending r w m h :
  r = GitSync ∨ r = GitRevert →
  IsValid (OperationInProgressNotification m) = false →
  reaches_Execute r w = true →
  PackagesToReload (fst (state_of (Clicked r w (m, h))))
  = if is_Succeeded (ExecuteResult w) then detached r w h
    else List.filter (backing_file_exists w) (detached r w h).
Proof.
  unfold detached.
  intros [-> | ->] Hidle Hreach; cbn [Clicked reaches_Execute names_to_unlink] in *.
  - apply andb_true_iff in Hreach as [Hsaved Hstash].
    rewrite SyncClicked_eq by done. cbn zeta.
    apply negb_true_iff in Hstash. rewrite Hstash.
    by destruct (is_Succeeded (ExecuteResult w)), (stash_needed w && DialogChoiceOk w).
  - rewrite RevertClicked_eq by done. cbn zeta. rewrite Hreach.
    by destruct (is_Succeeded (ExecuteResult w)).
Qed.

Lemma reconciled_somewhere w (l : list UPackage) p :
  p ∈ l → p ∈ List.filter (backing_file_exists w) l ∨ p ∈ List.filter (RemovePredicate w) l.
Proof.
  intros Hin. rewrite !elem_of_bfilter. unfold RemovePredicate, backing_file_exists.
  destruct (FileExists w (PackageFilename w p)); [left|right]; done.
Qed.

(** X8.  When a sync or a revert made on an idle menu reaches [Execute] and
    [Execute] does not succeed, the click handler itself reconciles, once:
    every package whose loaders it has reset is either reloaded, and then its
    backing file exists, or unloaded, and then its file is absent; and the
    pending reload set is left holding the reloaded handles. *)
Theorem failed_dispatch_reconciles_what_it_detached (r : Request) (w : World) (s : St) :
  r = GitSync ∨ r = GitRevert →
  IsValid (OperationInProgressNotification (fst s)) = false →
  reaches_Execute r w = true →
  is_Succeeded (ExecuteResult w) = false →
  ∃ reloaded unloaded,
    List.filter is_reconcile (trace_of (Clicked r w s))
    = [EvReloadPackages reloaded; EvUnloadPackages unloaded]
    ∧ (∀ p, EvResetLoaders p ∈ trace_of (Clicked r w s) → p ∈ reloaded ∨ p ∈ unloaded)
    ∧ (∀ p, p ∈ reloaded → FileExists w (PackageFilename w p) = true)
    ∧ (∀ p, p ∈ unloaded → FileExists w (PackageFilename w p) = false)
    ∧ PackagesToReload (fst (state_of (Clicked r w s))) = reloaded.
Proof.
  destruct s as [m h]. cbn [fst]. intros Hr Hidle Hreach Hexec.
  exists (List.filter (backing_file_exists w) (detached r w h)),
         (List.filter (RemovePredicate w) (detached r w h)).
  split; [|split; [|split; [|split]]].
  - pose proof (dispatch_failure_reconciles_at_once w (m, h) Hidle Hexec) as [Hrev Hsync].
    cbn [fst snd] in *. unfold detached.
    destruct Hr as [-> | ->]; cbn [Clicked reaches_Execute names_to_unlink] in *.
    + apply andb_true_iff in Hreach as [Hsaved Hstash].
      apply negb_true_iff, andb_false_iff in Hstash.
      apply Hsync; [done|]. destruct Hstash as [?|Hd]; [by left|right].
      by apply negb_false_iff.
    + by apply Hrev.
  - intros p Hp. apply reconciled_somewhere. by apply (click_resets r w m h).
  - by intros p [_ ?]%elem_of_bfilter.
  - intros p [_ Hp]%elem_of_bfilter. unfold RemovePredicate in Hp.
    by apply negb_true_iff.
  - by rewrite click_pending, Hexec.
Qed.

Lemma failed_dispatch_reconciles_what_it_detached_witness :
  ∃ reloaded unloaded,
    List.filter is_reconcile
      (trace_of (Clicked GitRevert
                   (Demo.world ["/Proj/Content/A.uasset"; "/Proj/Content/B.uasset"]
                               [] [] ["/Proj/Content/A.uasset"] (true, [])
                               true true true true Failed)
                   (Demo.idle, Demo.resident)))
    = [EvReloadPackages reloaded; EvUnloadPackages unloaded].
Proof.
  destruct (failed_dispatch_reconciles_what_it_detached GitRevert
              (Demo.world ["/Proj/Content/A.uasset"; "/Proj/Content/B.uasset"]
                          [] [] ["/Proj/Content/A.uasset"] (true, [])
                          true true true true Failed)
              (Demo.idle, Demo.resident))
    as (reloaded & unloaded & H & _);
    [by right|reflexivity|reflexivity|reflexivity|].
  exists reloaded, unloaded. exact H.
Defined.

(** X9.  When a sync or a revert made on an idle menu reaches [Execute] and
    [Execute] succeeds, the completion callback of that operation, whatever
    its result and whatever the disk then holds, reconciles once, and every
    package whose loaders the click had reset is either reloaded, its backing
    file existing at that time, or unloaded, its file being absent. *)
Theorem completion_reconciles_what_the_click_detached
    (r : Request) (w : World) (s : St) :
  r = GitSync ∨ r = GitRevert →
  IsValid (OperationInProgressNotification (fst s)) = false →
  reaches_Execute r w = true →
  is_Succeeded (ExecuteResult w) = true →
  ∀ (w' : World) (InResult : CommandResult),
    ∃ reloaded unloaded,
      List.filter is_reconcile
        (trace_of (OnSourceControlOperationComplete w' (OperationOf r) InResult
                     (state_of (Clicked r w s))))
      = [EvReloadPackages reloaded; EvUnloadPackages unloaded]
      ∧ (∀ p, EvResetLoaders p ∈ trace_of (Clicked r w s) → p ∈ reloaded ∨ p ∈ unloaded)
      ∧ (∀ p, p ∈ reloaded → FileExists w' (PackageFilename w' p) = true)
      ∧ (∀ p, p ∈ unloaded → FileExists w' (PackageFilename w' p) = false).
Proof.
  destruct s as [m h]. cbn [fst]. intros Hr Hidle Hreach Hexec w' res.
  exists (List.filter (backing_file_exists w') (detached r w h)),
         (List.filter (RemovePredicate w') (detached r w h)).
  pose proof (click_pending r w m h Hr Hidle Hreach) as Hpending.
  rewrite Hexec in Hpending.
  split; [|split; [|split]].
  - destruct (state_of (Clicked r w (m, h))) as [m1 h1]. cbn [fst] in Hpending.
    rewrite OnSourceControlOperationComplete_eq. cbn zeta.
    assert (is_Sync_or_Revert (OperationOf r) = true) as -> by by destruct Hr as [-> | ->].
    unfold trace_of. cbn [snd]. rewrite Hpending.
    unfold unstash_trace, reconcile_trace, result_trace.
    by destruct (IsValid (OperationInProgressNotification m1)),
      (bStashMadeBeforeSync m1), (StashPopOk w'), (is_Succeeded res).
  - intros p Hp. apply reconciled_somewhere. by apply (click_resets r w m h).
  - by intros p [_ ?]%elem_of_bfilter.
  - intros p [_ Hp]%elem_of_bfilter. unfold RemovePredicate in Hp.
    by apply negb_true_iff.
Qed.

Lemma completion_reconciles_what_the_click_detached_witness :
  ∃ reloaded unloaded,
    List.filter is_reconcile
      (trace_of (OnSourceControlOperationComplete
                   (Demo.world [] [] [] ["/Proj/Content/B.uasset"] (true, [])
                               true true true true Succeeded)
                   OpSync Succeeded
                   (state_of (Clicked GitSync
                                (Demo.world [] ["Content/A.uasset"; "Content/B.uasset"] []
                                            ["/Proj/Content/A.uasset"; "/Proj/Content/B.uasset"]
                                            (true, []) true true true true Succeeded)
                                (Demo.idle, Demo.resident)))))
    = [EvReloadPackages reloaded; EvUnloadPackages unloaded].
Proof.
  destruct (completion_reconciles_what_the_click_detached GitSync
              (Demo.world [] ["Content/A.uasset"; "Content/B.uasset"] []
                          ["/Proj/Content/A.uasset"; "/Proj/Content/B.uasset"]
                          (true, []) true true true true Succeeded)
              (Demo.idle, Demo.resident)
              (or_introl eq_refl) eq_refl eq_refl eq_refl
              (Demo.world [] [] [] ["/Proj/Content/B.uasset"] (true, [])
                          true true true true Succeeded)
              Succeeded)
    as (reloaded & unloaded & H & _).
  exists reloaded, unloaded. exact H.
Defined.

(** X10.  A sync or revert that reaches [Execute] resets the loaders of
    exactly the resident packages it resolved: for a revert, the resident
    packages named by a file found under the content directory whose
    conversion succeeds; for a sync, the resident packages named by a changed
    file whose absolute path converts.  Nothing else is detached, and no such
    package is left out. *)
Theorem detached_exactly_the_resolved_resident_packages
    (w : World) (s : St) (p : UPackage) :
  IsValid (OperationInProgressNotification (fst s)) = false →
  (reaches_Execute GitRevert w = true →
   EvResetLoaders p ∈ trace_of (RevertClicked w s)
   ↔ Host.FindPackage (snd s) (GetName p) = Some p
     ∧ ∃ Path, Path ∈ FindPackagesInDirectory w
               ∧ TryConvertFilenameToLongPackageName w Path = inl (GetName p))
  ∧ (reaches_Execute GitSync w = true →
     EvResetLoaders p ∈ trace_of (SyncClicked w s)
     ↔ Host.FindPackage (snd s) (GetName p) = Some p
       ∧ ∃ Filename, Filename ∈ ChangedFiles w
                     ∧ TryConvertFilenameToLongPackageName w
                         (ConvertRelativePathToFull w (PathToRepositoryRoot w) Filename)
                       = inl (GetName p)).
Proof.
  destruct s as [m h]. cbn [fst snd]. intros Hidle.
  assert (∀ (f : string → string) (l : list string) (n : string),
            n ∈ omap (λ x, converted w (f x)) l
            ↔ ∃ x, x ∈ l ∧ TryConvertFilenameToLongPackageName w (f x) = inl n) as Hconv.
  { intros f l n. rewrite list_elem_of_omap. unfold converted.
    split; intros (x & Hin & Hx); exists x; (split; [done|]).
    - by destruct (TryConvertFilenameToLongPackageName w (f x)); simplify_eq.
    - by rewrite Hx. }
  split; intros Hreach.
  - change RevertClicked with (Clicked GitRevert).
    rewrite click_resets by (done || by right).
    unfold detached. rewrite elem_of_detached. cbn [names_to_unlink].
    rewrite (Hconv (λ x, x)). tauto.
  - change SyncClicked with (Clicked GitSync).
    rewrite click_resets by (done || by left).
    unfold detached. rewrite elem_of_detached. cbn [names_to_unlink].
    unfold sync_names, AbsolutePath. rewrite (Hconv _). tauto.
Qed.

Lemma detached_exactly_the_resolved_resident_packages_witness :
  EvResetLoaders Demo.B
  ∈ trace_of (RevertClicked
                (Demo.world ["/Proj/Content/A.uasset"; "/Proj/Content/B.uasset"]
                            [] [] [] (true, []) true true true true Succeeded)
                (Demo.idle, Demo.resident)).
Proof.
  apply (proj1 (detached_exactly_the_resolved_resident_packages
                  (Demo.world ["/Proj/Content/A.uasset"; "/Proj/Content/B.uasset"]
                              [] [] [] (true, []) true true true true Succeeded)
                  (Demo.idle, Demo.resident) Demo.B eq_refl) eq_refl).
  split; [reflexivity|]. exists "/Proj/Content/B.uasset".
  split; [|reflexivity]. apply list_elem_of_further, list_elem_of_here.
Defined.

(** ** Stash and unstash *)

(** X11.  [StashAwayAnyModifications] asks the user only when the status
    command succeeded and printed something; it runs the stash command only
    when the user then accepts; it returns false only when the user declines;
    a stash command that fails does not make it return false.  The stash flag
    is assigned the result of the stash command when that command is run and
    is left untouched otherwise; nothing else of the state changes. *)
Theorem stash_prompt_outcomes (w : World) (s : St) :
  let r := StashAwayAnyModifications w s in
  (value_of r = false ↔ stash_needed w = true ∧ DialogChoiceOk w = false)
  ∧ List.filter is_prompt (trace_of r)
    = (if stash_needed w then [EvMessageDialog Stash_Ask] else [])
  ∧ List.filter is_stash_command (trace_of r)
    = (if stash_needed w && DialogChoiceOk w
       then [EvRunCommand "stash" ParametersStashSave] else [])
  ∧ bStashMadeBeforeSync (fst (state_of r))
    = (if stash_needed w && DialogChoiceOk w
       then StashSaveOk w else bStashMadeBeforeSync (fst s))
  ∧ PackagesToReload (fst (state_of r)) = PackagesToReload (fst s)
  ∧ OperationInProgressNotification (fst (state_of r))
    = OperationInProgressNotification (fst s)
  ∧ snd (state_of r) = snd s.
Proof.
  destruct s as [m h]. cbn zeta. rewrite StashAwayAnyModifications_trace.
  unfold value_of, trace_of, state_of, stash_trace. cbn [fst snd].
  destruct (stash_needed w), (DialogChoiceOk w), (StashSaveOk w); cbn;
    repeat split; try done; intros [? ?]; done.
Qed.

(** X12.  A sync made on an idle menu whose stash flag is not set, that
    reaches [Execute] and is dispatched: its completion callback pops a stash
    exactly when the sync has made one, that is, when the working tree had
    modifications and the stash command succeeded; when the tree was clean or
    the stash command failed, the callback runs no stash command. *)
Theorem sync_pops_the_stash_it_made (w : World) (s : St) :
  IsValid (OperationInProgressNotification (fst s)) = false →
  bStashMadeBeforeSync (fst s) = false →
  reaches_Execute GitSync w = true →
  is_Succeeded (ExecuteResult w) = true →
  ∀ (w' : World) (InResult : CommandResult),
    List.filter is_stash_command
      (trace_of (OnSourceControlOperationComplete w' OpSync InResult
                   (state_of (SyncClicked w s))))
    = (if stash_needed w && StashSaveOk w
       then [EvRunCommand "stash" ParametersStashPop] else []).
Proof.
  destruct s as [m h]. cbn [fst reaches_Execute].
  intros Hidle Hflag Hreach Hexec w' res.
  apply andb_true_iff in Hreach as [Hsaved Hstash].
  apply negb_true_iff in Hstash.
  rewrite SyncClicked_eq by done. cbn zeta. rewrite Hstash, Hexec.
  unfold state_of. cbn [fst snd].
  rewrite OnSourceControlOperationComplete_eq. cbn zeta.
  unfold trace_of, unstash_trace, reconcile_trace, result_trace.
  cbn [snd is_Sync_or_Revert].
  destruct (stash_needed w), (DialogChoiceOk w), (StashSaveOk w);
    try discriminate Hstash;
    cbn [andb with_notification with_stash_flag with_pending bStashMadeBeforeSync
         OperationInProgressNotification PackagesToReload];
    rewrite ?Hflag;
    by destruct (IsValid (AddNotificationResult w)), (StashPopOk w'), (is_Succeeded res).
Qed.

Lemma sync_pops_the_stash_it_made_witness :
  List.filter is_stash_command
    (trace_of (OnSourceControlOperationComplete
                 (Demo.world [] [] [] [] (true, []) true true true false Succeeded)
                 OpSync Failed
                 (state_of (SyncClicked
                              (Demo.world [] [] [" M Content/B.uasset"] []
                                          (true, [" M Content/B.uasset"])
                                          true true true true Succeeded)
                              (Demo.idle, Demo.resident)))))
  = [EvRunCommand "stash" ParametersStashPop].
Proof.
  apply (sync_pops_the_stash_it_made
           (Demo.world [] [] [" M Content/B.uasset"] []
                       (true, [" M Content/B.uasset"]) true true true true Succeeded)
           (Demo.idle, Demo.resident)); reflexivity.
Defined.

(** ** More on detachment *)

Lemma step_host n p h (e0 : PackageEntry) :
  Host.FindPackage h n = Some p → h !! n = Some e0 →
  Host.ResetLoaders p (if Host.fully_loaded h p then h else Host.FullyLoad p h)
  = <[n := detached_entry e0]> h.
Proof.
  intros Hf He. pose proof (FindPackage_name _ _ _ Hf) as Hn.
  unfold Host.fully_loaded, Host.ResetLoaders, Host.FullyLoad. rewrite Hn, He.
  apply map_eq. intros k. destruct (decide (n = k)) as [<-|Hne].
  - rewrite lookup_insert_eq.
    destruct (IsFullyLoaded e0) eqn:Hl.
    + rewrite lookup_alter_eq, He. cbn. unfold detached_entry. by rewrite Hl.
    + by rewrite !lookup_alter_eq, He.
  - rewrite lookup_insert_ne by done.
    destruct (IsFullyLoaded e0); by rewrite !lookup_alter_ne by done.
Qed.

Lemma loop_host_lookup names h n :
  loop_host (UnlinkPackages_loop names h) !! n
  = if bool_decide (n ∈ names) then detached_entry <$> h !! n else h !! n.
Proof.
  revert h. induction names as [|m rest IH]; intros h; [done|].
  destruct (h !! m) as [e0|] eqn:He.
  - assert (Host.FindPackage h m = Some (mkPackage m (entry_map e0))) as Hf
      by (unfold Host.FindPackage; by rewrite He).
    rewrite (loop_resident _ _ _ _ Hf). cbn [loop_host fst snd].
    rewrite IH, (step_host _ _ _ _ Hf He).
    destruct (decide (n = m)) as [->|Hne].
    + rewrite lookup_insert_eq, He.
      rewrite (bool_decide_eq_true_2 (m ∈ m :: rest)) by apply list_elem_of_here.
      by destruct (bool_decide (m ∈ rest)).
    + rewrite lookup_insert_ne by done.
      destruct (bool_decide (n ∈ rest)) eqn:Hin.
      * apply bool_decide_eq_true_1 in Hin.
        by rewrite (bool_decide_eq_true_2 (n ∈ m :: rest))
          by by apply list_elem_of_further.
      * apply bool_decide_eq_false_1 in Hin.
        rewrite (bool_decide_eq_false_2 (n ∈ m :: rest)); [done|].
        by intros [?|?]%elem_of_cons.
  - assert (Host.FindPackage h m = None) as Hf
      by (unfold Host.FindPackage; by rewrite He).
    rewrite (loop_absent _ _ _ Hf), IH.
    destruct (decide (n = m)) as [->|Hne].
    + rewrite He. by destruct (bool_decide (m ∈ rest)), (bool_decide (m ∈ m :: rest)).
    + destruct (bool_decide (n ∈ rest)) eqn:Hin.
      * apply bool_decide_eq_true_1 in Hin.
        by rewrite (bool_decide_eq_true_2 (n ∈ m :: rest))
          by by apply list_elem_of_further.
      * apply bool_decide_eq_false_1 in Hin.
        rewrite (bool_decide_eq_false_2 (n ∈ m :: rest)); [done|].
        by intros [?|?]%elem_of_cons.
Qed.

Lemma Unlink_host_lookup names h n :
  loop_host (Unlink names h) !! n
  = if bool_decide (n ∈ names) then detached_entry <$> h !! n else h !! n.
Proof.
  unfold Unlink. destruct names as [|n0 rest]; [done|].
  cbn [List.length Nat.ltb Nat.leb].
  rewrite <-(loop_host_lookup (n0 :: rest) h n). unfold loop_host.
  by destruct (UnlinkPackages_loop (n0 :: rest) h) as [[??]?].
Qed.

(** X13.  [UnlinkPackages] changes no member of the menu, and on the
    resident packages it does exactly this: every resident package named in
    the input ends fully loaded and without loader, keeping whether it holds a
    map; every other resident package is untouched; no package becomes
    resident and none stops being resident. *)
Theorem unlink_postcondition (names : list string) (s : St) (n : string) :
  fst (state_of (UnlinkPackages names s)) = fst s
  ∧ snd (state_of (UnlinkPackages names s)) !! n
    = (if bool_decide (n ∈ names)
       then (λ e, mkEntry (entry_map e) true false) <$> snd s !! n
       else snd s !! n)
  ∧ (is_Some (snd (state_of (UnlinkPackages names s)) !! n) ↔ is_Some (snd s !! n)).
Proof.
  destruct s as [m h]. rewrite UnlinkPackages_eq. unfold state_of. cbn [fst snd].
  split; [done|]. rewrite Unlink_host_lookup. split; [done|].
  destruct (bool_decide (n ∈ names)); [|done]. by rewrite <-!not_eq_None_Some, fmap_None.
Qed.

Lemma loop_nothing_resident names h :
  (∀ n, n ∈ names → h !! n = None) →
  UnlinkPackages_loop names h = ([], h, []).
Proof.
  induction names as [|m rest IH]; intros Hnone; [done|].
  rewrite loop_absent.
  - apply IH. intros n Hn. apply Hnone. by apply list_elem_of_further.
  - unfold Host.FindPackage. by rewrite (Hnone m) by apply list_elem_of_here.
Qed.

(** X14.  When none of the names passed to [UnlinkPackages] is resident,
    no handle is returned, no call is made to the asset host and the state is
    unchanged; the count of reset loaders is logged as zero when the list of
    names is not empty, and nothing at all is logged when it is empty. *)
Theorem unlink_of_nothing_resident (names : list string) (s : St) :
  (∀ n, n ∈ names → snd s !! n = None) →
  UnlinkPackages names s
  = ([], s, match names with
            | [] => []
            | _ :: _ => [EvLog VLog (LogResetLoaders 0)]
            end).
Proof.
  destruct s as [m h]. cbn [snd]. intros Hnone.
  unfold UnlinkPackages, Unlink. cbn [fst snd].
  destruct names as [|n0 rest]; [done|]. cbn [List.length Nat.ltb Nat.leb].
  by rewrite (loop_nothing_resident _ _ Hnone).
Qed.

Lemma unlink_of_nothing_resident_witness :
  UnlinkPackages ["/Game/Missing"; "/Game/Other"] (Demo.idle, Demo.resident)
  = ([], (Demo.idle, Demo.resident), [EvLog VLog (LogResetLoaders 0)]).
Proof.
  apply (unlink_of_nothing_resident ["/Game/Missing"; "/Game/Other"]
                                    (Demo.idle, Demo.resident)).
  intros n Hn. cbn [snd].
  apply elem_of_cons in Hn as [->|Hn]; [reflexivity|].
  apply list_elem_of_singleton in Hn as ->. reflexivity.
Defined.

Lemma loop_settled names h :
  (∀ n e, n ∈ names → h !! n = Some e → IsFullyLoaded e = true ∧ HasLinker e = false) →
  UnlinkPackages_loop names h
  = (omap (Host.FindPackage h) names, h,
     List.map EvResetLoaders (omap (Host.FindPackage h) names)).
Proof.
  induction names as [|m rest IH]; intros Hset; [done|].
  assert (UnlinkPackages_loop rest h
          = (omap (Host.FindPackage h) rest, h,
             List.map EvResetLoaders (omap (Host.FindPackage h) rest))) as Hrest.
  { apply IH. intros n e Hn. apply Hset. by apply list_elem_of_further. }
  destruct (h !! m) as [e0|] eqn:He.
  - assert (Host.FindPackage h m = Some (mkPackage m (entry_map e0))) as Hf
      by (unfold Host.FindPackage; by rewrite He).
    destruct (Hset m e0 (list_elem_of_here _ _) He) as [Hl Hk].
    rewrite (loop_resident _ _ _ _ Hf). cbn zeta.
    rewrite (step_host _ _ _ _ Hf He).
    assert (detached_entry e0 = e0) as ->
      by (destruct e0; cbn in *; by subst).
    rewrite insert_id by done. rewrite Hrest.
    assert (Host.fully_loaded h (mkPackage m (entry_map e0)) = true) as ->
      by (unfold Host.fully_loaded; cbn; by rewrite He).
    cbn. by rewrite Hf.
  - assert (Host.FindPackage h m = None) as Hf
      by (unfold Host.FindPackage; by rewrite He).
    rewrite (loop_absent _ _ _ Hf), Hrest. cbn. by rewrite Hf.
Qed.

Lemma FindPackage_Unlink names h n :
  Host.FindPackage (loop_host (Unlink names h)) n = Host.FindPackage h n.
Proof.
  unfold Host.FindPackage. rewrite Unlink_host_lookup.
  by destruct (bool_decide (n ∈ names)), (h !! n).
Qed.

Lemma filter_host_call_resets ps :
  List.filter is_host_call (List.map EvResetLoaders ps) = List.map EvResetLoaders ps.
Proof. induction ps as [|p ps IH]; [done|]. cbn. by rewrite IH. Qed.

(** X15.  Running [UnlinkPackages] a second time on the same names returns
    the same handles and changes nothing: the state is the one the first run
    left, and the only calls to the asset host are one [ResetLoaders] per
    handle, with no [FlushAsyncLoading] and no [FullyLoad]. *)
Theorem unlink_twice (names : list string) (s : St) :
  let r1 := UnlinkPackages names s in
  let r2 := UnlinkPackages names (state_of r1) in
  value_of r2 = value_of r1
  ∧ state_of r2 = state_of r1
  ∧ List.filter is_host_call (trace_of r2) = List.map EvResetLoaders (value_of r1).
Proof.
  destruct s as [m h]. cbn zeta. rewrite (UnlinkPackages_eq names m h).
  unfold state_of at 1 3 4, value_of at 2 3. cbn [fst snd].
  set (h' := loop_host (Unlink names h)).
  assert (omap (Host.FindPackage h') names = omap (Host.FindPackage h) names) as Hsame.
  { apply omap_pointwise. intros n. apply FindPackage_Unlink. }
  assert (UnlinkPackages_loop names h'
          = (omap (Host.FindPackage h) names, h',
             List.map EvResetLoaders (omap (Host.FindPackage h) names))) as Hloop.
  { rewrite <-Hsame. apply loop_settled. intros n e Hn. subst h'.
    rewrite Unlink_host_lookup, (bool_decide_eq_true_2 _ Hn).
    destruct (h !! n) as [e0|]; [|done]. by intros [= <-]. }
  unfold UnlinkPackages, Unlink, value_of, state_of, trace_of. cbn [fst snd].
  destruct (0 <? List.length names)%nat eqn:Hlen.
  - rewrite Hloop. cbn [fst snd]. split; [done|]. split; [done|].
    by rewrite List.filter_app, filter_host_call_resets, app_nil_r.
  - destruct names; [done|discriminate Hlen].
Qed.

(** ** More on reconciliation *)

Lemma bfilter_idem {A} (f : A → bool) (l : list A) :
  List.filter f (List.filter f l) = List.filter f l.
Proof.
  induction l as [|x l IH]; [done|]. cbn.
  destruct (f x) eqn:Hx; [|done]. cbn. by rewrite Hx, IH.
Qed.

Lemma bfilter_complement {A} (f g : A → bool) (l : list A) :
  (∀ x, g x = negb (f x)) → List.filter g (List.filter f l) = [].
Proof.
  intros Hg. induction l as [|x l IH]; [done|]. cbn.
  destruct (f x) eqn:Hx; [|done]. cbn. by rewrite Hg, Hx.
Qed.

(** X16.  Reconciling again the list that [ReloadPackages] has left, while
    the disk is unchanged, keeps the list as it is: the same handles are
    reloaded and none is unloaded.  On an empty list the reload and the unload
    are still called, with empty lists, and the state is unchanged. *)
Theorem reconcile_twice (w : World) (pending : list UPackage) (s s' : St) :
  let r1 := ReloadPackages w pending s in
  let r2 := ReloadPackages w (value_of r1) s' in
  value_of r2 = value_of r1
  ∧ trace_of r2
    = [EvLog VLog (LogReloading (List.length (value_of r1)));
       EvReloadPackages (value_of r1); EvUnloadPackages []]
  ∧ ReloadPackages w [] s
    = ([], s, [EvLog VLog (LogReloading 0); EvReloadPackages []; EvUnloadPackages []]).
Proof.
  cbn zeta. rewrite !ReloadPackages_eq. cbn zeta.
  unfold value_of, trace_of. cbn [fst snd].
  rewrite bfilter_idem.
  rewrite (bfilter_complement (backing_file_exists w) (RemovePredicate w)) by done.
  by destruct s.
Qed.

(** ** The asset host accepts every handler *)

Lemma run_skip t h :
  (∀ e, e ∈ t → is_host_call e = false) → Host.run h t = Some h.
Proof.
  induction t as [|e t IH]; intros Hskip; [done|]. cbn.
  assert (Host.step h e = Some h) as ->.
  { pose proof (Hskip e (list_elem_of_here _ _)) as He. by destruct e. }
  apply IH. intros e' He'. apply Hskip. by apply list_elem_of_further.
Qed.

Ltac skip_piece t :=
  rewrite (run_skip t)
    by (let e := fresh "e" in let He := fresh "He" in
        intros e He; trace_cases He; reflexivity).

Lemma run_reconcile w ps h :
  Host.run h (reconcile_trace w ps)
  = Some (Host.UnloadPackages (List.filter (RemovePredicate w) ps)
            (Host.ReloadPackages (List.filter (backing_file_exists w) ps) h)).
Proof. done. Qed.

Lemma run_app_Some h t1 t2 h1 :
  Host.run h t1 = Some h1 → Host.run h (t1 ++ t2) = Host.run h1 t2.
Proof. intros H. by rewrite run_app, H. Qed.

Lemma run_stash_trace w h : Host.run h (stash_trace w) = Some h.
Proof.
  apply run_skip. intros e He. unfold stash_trace in He.
  destruct (stash_needed w), (DialogChoiceOk w), (StashSaveOk w);
    trace_cases He; reflexivity.
Qed.

Lemma run_sync_prefix w h :
  Host.run h ([EvSaveDirtyPackages; EvGetBranchName;
               EvRunCommand "diff" ["--stat"; "--name-only"; "..origin/" +:+ BranchName w];
               EvRunCommand "status" ParametersStatus]
              ++ resolution_trace w ++ loop_trace (Unlink (sync_names w) h)
              ++ stash_trace w)
  = Some (loop_host (Unlink (sync_names w) h)).
Proof.
  cbn [app Host.run Host.step].
  rewrite (run_app_Some _ _ _ h)
    by (apply run_skip; intros e He; trace_cases He; reflexivity).
  rewrite (run_app_Some _ _ _ _ (Unlink_run _ _)). apply run_stash_trace.
Qed.

Lemma run_revert_prefix w h :
  Host.run h ([EvMessageDialog Revert_Ask]
              ++ omap (failure w) (FindPackagesInDirectory w)
              ++ loop_trace (Unlink (omap (converted w) (FindPackagesInDirectory w)) h))
  = Some (loop_host (Unlink (omap (converted w) (FindPackagesInDirectory w)) h)).
Proof.
  cbn [app Host.run Host.step].
  rewrite (run_app_Some _ _ _ h)
    by (apply run_skip; intros e He; trace_cases He; reflexivity).
  apply Unlink_run.
Qed.

(** X17.  Replaying on the asset host the calls made by any click handler
    or by the completion callback, from the resident packages the handler
    started with, never meets a [ResetLoaders] on a package that is not fully
    loaded, and ends in the resident packages the handler leaves. *)
Theorem no_handler_detaches_a_partially_loaded_package (w : World) (s : St) :
  (∀ r : Request,
     Host.run (snd s) (trace_of (Clicked r w s)) = Some (snd (state_of (Clicked r w s))))
  ∧ (∀ (InOperation : OperationName) (InResult : CommandResult),
       Host.run (snd s)
         (trace_of (OnSourceControlOperationComplete w InOperation InResult s))
       = Some (snd (state_of
                      (OnSourceControlOperationComplete w InOperation InResult s)))).
Proof.
  destruct s as [m h]. cbn [snd]. split.
  - intros r. destruct (IsValid (OperationInProgressNotification m)) eqn:Hidle;
      [by rewrite Clicked_busy|].
    destruct r; cbn [Clicked].
    + change PushClicked with (Clicked GitPush).
      rewrite Push_Refresh_eq by (done || by left).
      by destruct (is_Succeeded (ExecuteResult w)).
    + destruct (saved w) eqn:Hsaved; [|by rewrite SyncClicked_unsaved].
      rewrite SyncClicked_eq by done. cbn zeta.
      destruct (stash_needed w && negb (DialogChoiceOk w)),
        (is_Succeeded (ExecuteResult w));
        unfold trace_of, state_of; cbn [fst snd];
        by rewrite (run_app_Some _ _ _ _ (run_sync_prefix w h)).
    + rewrite RevertClicked_eq by done. cbn zeta.
      destruct (DialogChoiceOk w); [|done].
      destruct (is_Succeeded (ExecuteResult w));
        unfold trace_of, state_of; cbn [fst snd];
        by rewrite (run_app_Some _ _ _ _ (run_revert_prefix w h)).
    + change RefreshClicked with (Clicked GitRefresh).
      rewrite Push_Refresh_eq by (done || by right).
      by destruct (is_Succeeded (ExecuteResult w)).
  - intros op res. rewrite OnSourceControlOperationComplete_eq. cbn zeta.
    unfold unstash_trace, result_trace.
    by destruct (is_Sync_or_Revert op), (IsValid (OperationInProgressNotification m)),
      (bStashMadeBeforeSync m), (StashPopOk w), (is_Succeeded res).
Qed.

(** ** The git commands run synchronously *)

(** X18.  The git commands the handlers run themselves.  A revert runs
    none, and its only prompt is the confirmation (it never asks to save
    dirty packages).  A sync that is accepted and whose assets are saved runs,
    in this order, the diff against [..origin/<branch>], the status, the
    status again for the stash decision and, when the stash is needed and
    accepted, the stash; otherwise it runs none.  The completion callback
    runs the stash pop when the operation is a sync or a revert and the stash
    flag is set, and nothing otherwise. *)
Theorem synchronous_git_commands (w : World) (s : St) :
  List.filter is_run_command (trace_of (RevertClicked w s)) = []
  ∧ List.filter is_prompt (trace_of (RevertClicked w s))
    = (if IsValid (OperationInProgressNotification (fst s))
       then [] else [EvMessageDialog Revert_Ask])
  ∧ List.filter is_run_command (trace_of (SyncClicked w s))
    = (if negb (IsValid (OperationInProgressNotification (fst s))) && saved w
       then [EvRunCommand "diff" ["--stat"; "--name-only"; "..origin/" +:+ BranchName w];
             EvRunCommand "status" ParametersStatus;
             EvRunCommand "status" ParametersStatus]
            ++ (if stash_needed w && DialogChoiceOk w
                then [EvRunCommand "stash" ParametersStashSave] else [])
       else [])
  ∧ ∀ (InOperation : OperationName) (InResult : CommandResult),
      List.filter is_run_command
        (trace_of (OnSourceControlOperationComplete w InOperation InResult s))
      = (if is_Sync_or_Revert InOperation && bStashMadeBeforeSync (fst s)
         then [EvRunCommand "stash" ParametersStashPop] else []).
Proof.
  destruct s as [m h]. cbn [fst].
  split; [|split; [|split]].
  - change RevertClicked with (Clicked GitRevert).
    destruct (IsValid (OperationInProgressNotification m)) eqn:Hidle;
      [by rewrite Clicked_busy|].
    cbn [Clicked]. rewrite RevertClicked_eq by done. cbn zeta.
    unfold reconcile_trace.
    destruct (DialogChoiceOk w), (is_Succeeded (ExecuteResult w));
      unfold trace_of; cbn [snd]; apply filter_none; intros e He;
      trace_cases He; reflexivity.
  - change RevertClicked with (Clicked GitRevert).
    destruct (IsValid (OperationInProgressNotification m)) eqn:Hidle;
      [by rewrite Clicked_busy|].
    cbn [Clicked]. rewrite RevertClicked_eq by done. cbn zeta.
    unfold reconcile_trace.
    destruct (DialogChoiceOk w), (is_Succeeded (ExecuteResult w));
      unfold trace_of; cbn [snd]; rewrite ?List.filter_app;
      try drop_piece (omap (failure w) (FindPackagesInDirectory w));
      try drop_piece (loop_trace (Unlink (omap (converted w) (FindPackagesInDirectory w)) h));
      reflexivity.
  - change SyncClicked with (Clicked GitSync).
    destruct (IsValid (OperationInProgressNotification m)) eqn:Hidle;
      [by rewrite Clicked_busy|].
    cbn [Clicked negb andb].
    destruct (saved w) eqn:Hsaved; [|by rewrite SyncClicked_unsaved].
    rewrite SyncClicked_eq by done. cbn zeta.
    unfold stash_trace, reconcile_trace.
    destruct (stash_needed w), (DialogChoiceOk w), (StashSaveOk w),
      (is_Succeeded (ExecuteResult w));
      unfold trace_of; cbn [snd andb negb]; rewrite !List.filter_app;
      drop_piece (resolution_trace w);
      drop_piece (loop_trace (Unlink (sync_names w) h));
      reflexivity.
  - intros op res. rewrite OnSourceControlOperationComplete_eq. cbn zeta.
    unfold unstash_trace, reconcile_trace, result_trace.
    by destruct (is_Sync_or_Revert op), (IsValid (OperationInProgressNotification m)),
      (bStashMadeBeforeSync m), (StashPopOk w), (is_Succeeded res).
Qed.

(** ** Status lines *)

Lemma LocalChanges_kept marker paths :
  (∀ p, is_modified_or_added (marker +:+ p) = true) →
  (∀ p, FString.RightChop (marker +:+ p) 3 = p) →
  LocalChanges (List.map (String.append marker) paths) = paths.
Proof.
  intros Hkept Hchop. unfold LocalChanges.
  induction paths as [|p l IH]; [done|]. cbn [List.map List.filter].
  rewrite Hkept. cbn [List.map]. by rewrite Hchop, IH.
Qed.

Lemma LocalChanges_dropped marker paths :
  (∀ p, is_modified_or_added (marker +:+ p) = false) →
  LocalChanges (List.map (String.append marker) paths) = [].
Proof.
  intros Hdrop. unfold LocalChanges.
  induction paths as [|p l IH]; [done|]. cbn [List.map List.filter].
  by rewrite Hdrop.
Qed.

(** X19.  The loop over the status lines recovers the path of every line
    written as an unstaged modification or addition (blank, M or A, blank,
    path), in order, and keeps nothing of a line marked as deleted, as staged
    or as untracked; it treats the lines one by one, so the result for two
    lists of lines put end to end is the two results put end to end. *)
Theorem local_changes_round_trip (paths : list string) :
  LocalChanges (List.map (String.append " M ") paths) = paths
  ∧ LocalChanges (List.map (String.append " A ") paths) = paths
  ∧ LocalChanges (List.map (String.append " D ") paths) = []
  ∧ LocalChanges (List.map (String.append "M  ") paths) = []
  ∧ LocalChanges (List.map (String.append "A  ") paths) = []
  ∧ LocalChanges (List.map (String.append "?? ") paths) = []
  ∧ ∀ lines1 lines2,
      LocalChanges (lines1 ++ lines2) = LocalChanges lines1 ++ LocalChanges lines2.
Proof.
  do 6 (split; [first [ apply LocalChanges_kept; intros p;
                          [ vm_compute; reflexivity
                          | change (FString.RightChop p 0 = p); by destruct p ]
                      | apply LocalChanges_dropped; intros p; vm_compute; reflexivity ]|]).
  intros l1 l2. unfold LocalChanges. by rewrite List.filter_app, List.map_app.
Qed.
